(** * easy-dl: binary resolution and the downloader/transcoder pipeline

    A shallow embedding of [src/lib.ts] (both variants kept in the
    repository: the older temp-file variant and the current stream-pipe
    variant) and of the command line in [src/index.ts], together with the
    properties the specification states about them and further
    properties read off the code.

    Node's runtime is modelled as follows.
    - Everything the code asks of its surroundings (platform, working
      directory, what [which] answers, what an HTTP GET answers, what the
      two child processes emit) is read from a [World] record.
    - Everything the code changes (files, directories) and everything it
      does that is observable from outside (commands run, requests sent,
      console output) is threaded through a [State]: a file system and an
      append-only [trace] of [Event]s.
    - A promise is an [Outcome]: resolved with a value, rejected with an
      error, or never settled.
    - File-system primitives ([mkdirSync], [createWriteStream],
      [writeFileSync], [unlinkSync]) and [spawn] are modelled on their
      success path; paths are opaque keys (no normalisation, no umask).
    - The two child processes are black boxes: all the code sees of them
      is the sequence of events they deliver to its listeners. *)

From Stdlib Require Import ZArith.
From stdpp Require Import base option list strings gmap pretty.

Local Open Scope string_scope.
Local Open Scope Z_scope.
Local Open Scope list_scope.

(** ** Values *)

(** A [Buffer] is a sequence of bytes. *)
Definition Buffer := list Byte.byte.

(** A JavaScript [Error] carries its message. *)
Inductive JsError := Error (message : string).

#[global] Instance JsError_eq_dec : EqDecision JsError.
Proof. solve_decision. Defined.

(** Template-literal rendering of a number, [`${n}`], for integers. *)
Definition numToString (n : Z) : string := pretty n.

(** Template-literal rendering of an exit code ([number | null]). *)
Definition codeToString (code : option Z) : string :=
  match code with
  | Some n => numToString n
  | None => "null"
  end.

(** JavaScript truthiness of an optional string: [undefined], [null] and
    the empty string are falsy. *)
Definition truthy (s : option string) : bool :=
  match s with
  | Some s => negb (String.eqb s "")
  | None => false
  end.

(** ** The file system *)

Record File := mkFile { fmode : Z; fdata : Buffer }.

Record Fs := mkFs { files : gmap string File; dirs : gset string }.

(** ** What the surroundings answer *)

(** What an HTTP GET runs into.
    - [Response]: a response whose body arrives in full.
    - [TransportError]: the request's ["error"] event, before any response.
    - [Interrupted]: a response of which only [received] arrives; the
      body never ends, and the request's ["error"] event follows with
      [err], or nothing follows at all.
    - [NoResponse]: neither response nor error, for ever. *)
Inductive HttpOutcome :=
| Response (statusCode : Z) (body : Buffer)
| TransportError (err : JsError)
| Interrupted (statusCode : Z) (received : Buffer) (err : option JsError)
| NoResponse.

(** Events the two spawned processes deliver to the listeners that
    [download] attaches. An exit code is [number | null]. *)
Inductive ProcEvent :=
| FfmpegStdout (chunk : Buffer)
| YtdlpStderr (chunk : string)
| FfmpegClose (code : option Z)
| YtdlpClose (code : option Z).

(** What a finished [execFile] of the downloader did (temp-file variant):
    it failed with an error, or it exited zero having written files. *)
Inductive ExecOutcome :=
| ExecFailed (err : JsError)
| ExecDone (written : list (string * Buffer)).

Record World := mkWorld {
  platform : string;                       (* process.platform *)
  arch : string;                           (* process.arch *)
  cwd : string;                            (* process.cwd() *)
  tmpdir : string;                         (* os.tmpdir() *)
  now : Z;                                 (* Date.now() *)
  sep : string;                            (* path.sep *)
  onPath : string -> bool;                 (* which/where exits zero *)
  http : string -> HttpOutcome;            (* https.get *)
  procEvents : list ProcEvent;             (* child-process events, in arrival order *)
  ytdlpExec : list string -> ExecOutcome;  (* execFile of the downloader *)
  globOrder : list string -> list string;  (* how glob.sync orders its matches *)
}.

(** ** What the code does to its surroundings *)

Inductive Event :=
| EExecFile (cmd : string) (args : list string)
| EExistsSync (path : string)
| EMkdirSync (path : string)
| ECreateWriteStream (path : string) (mode : Z)
| EHttpGet (url : string)
| EPipeToFile (path : string) (body : Buffer)
| EWriteFileSync (path : string) (data : string)
| EGlobSync (pattern : string)
| EReadFileSync (path : string)
| EUnlinkSync (path : string)
| EConsoleLog (msg : string)
| EConsoleError (args : list string)
| ESpawn (cmd : string) (args : list string)
| EPipeProc
| EProc (ev : ProcEvent).

Record State := mkState { fs : Fs; trace : list Event }.

(** ** Promises and the effect monad *)

Inductive Outcome (A : Type) :=
| Resolved (a : A)
| Rejected (e : JsError)
| Pending.
Arguments Resolved {A} a.
Arguments Rejected {A} e.
Arguments Pending {A}.

Definition isResolved {A} (o : Outcome A) : bool :=
  match o with Resolved _ => true | _ => false end.

Definition M (A : Type) : Type := State -> Outcome A * State.

Definition ret {A} (a : A) : M A := fun s => (Resolved a, s).

Definition throw {A} (e : JsError) : M A := fun s => (Rejected e, s).

(** A promise nothing ever settles. *)
Definition never {A} : M A := fun s => (Pending, s).

Definition bind {A B} (m : M A) (k : A -> M B) : M B :=
  fun s =>
    match m s with
    | (Resolved a, s') => k a s'
    | (Rejected e, s') => (Rejected e, s')
    | (Pending, s') => (Pending, s')
    end.

Notation "x <- m ;; k" := (bind m (fun x => k))
  (at level 100, m at next level, right associativity).
Notation "m ;;; k" := (bind m (fun _ => k))
  (at level 100, right associativity).

Definition emit (e : Event) : M unit :=
  fun s => (Resolved tt, mkState (fs s) (trace s ++ [e])).

Definition getFs : M Fs := fun s => (Resolved (fs s), s).

Definition putFs (f : Fs) : M unit := fun s => (Resolved tt, mkState f (trace s)).

(** ** Node primitives *)

(** [path.join] on segments that need no normalisation. *)
Definition join (w : World) (parts : list string) : string :=
  match parts with
  | [] => "."
  | p :: ps => fold_left (fun acc q => acc +:+ sep w +:+ q) ps p
  end.

Definition existsIn (f : Fs) (p : string) : bool :=
  bool_decide (is_Some (files f !! p)) || bool_decide (p ∈ dirs f).

Definition existsSync (p : string) : M bool :=
  emit (EExistsSync p) ;;;
  f <- getFs ;;
  ret (existsIn f p).

Definition mkdirSync (p : string) : M unit :=
  emit (EMkdirSync p) ;;;
  f <- getFs ;;
  putFs (mkFs (files f) ({[p]} ∪ dirs f)).

(** [createWriteStream(dest, { mode })] with the default flag ["w"]: the
    file is created with [mode] if absent and truncated (keeping its mode)
    if present. *)
Definition createWriteStream (dest : string) (mode : Z) : M unit :=
  emit (ECreateWriteStream dest mode) ;;;
  f <- getFs ;;
  let file :=
    match files f !! dest with
    | Some old => mkFile (fmode old) []
    | None => mkFile mode []
    end in
  putFs (mkFs (<[dest := file]> (files f)) (dirs f)).

(** [response.pipe(file)]: what arrives of the body is appended to the
    file. *)
Definition pipeToFile (dest : string) (body : Buffer) : M unit :=
  emit (EPipeToFile dest body) ;;;
  f <- getFs ;;
  putFs (mkFs (alter (fun old => mkFile (fmode old) (fdata old ++ body)) dest (files f))
              (dirs f)).

Definition consoleLog (msg : string) : M unit := emit (EConsoleLog msg).

(** The permission bits [0o755] (rwxr-xr-x). *)
Definition mode_0o755 : Z := 493.

(** ** [downloadFile] (lib.ts 222-238; 16-34 in the temp-file variant,
    which runs the same three effects in the same order) *)

Definition downloadFile (w : World) (url dest : string) : M unit :=
  mkdirSync (join w [cwd w; "bin"]) ;;;
  createWriteStream dest mode_0o755 ;;;
  emit (EHttpGet url) ;;;
  match http w url with
  | Response statusCode body =>
      if negb (statusCode =? 200)
      then throw (Error ("Download failed: " +:+ numToString statusCode))
      else pipeToFile dest body
  | TransportError err => throw err
  | Interrupted statusCode received err =>
      if negb (statusCode =? 200)
      then throw (Error ("Download failed: " +:+ numToString statusCode))
      else
        pipeToFile dest received ;;;
        match err with
        | Some e => throw e
        | None => never
        end
  | NoResponse => never
  end.

(** ** [ensureBinary] (lib.ts 249-299; 45-98 in the temp-file variant,
    identical up to where [execFile] is imported) *)

(** [execFileAsync(whichCmd, [exe])] inside the [try]: [true] when the
    locate command exits zero. *)
Definition execWhich (w : World) (whichCmd exe : string) : M bool :=
  emit (EExecFile whichCmd [exe]) ;;;
  ret (onPath w exe).

Definition isWin (w : World) : bool := String.eqb (platform w) "win32".

Definition exeName (w : World) (name : string) : string :=
  if isWin w then name +:+ ".exe" else name.

Definition whichCmd (w : World) : string :=
  if isWin w then "where" else "which".

Definition localPath (w : World) (name : string) : string :=
  join w [cwd w; "bin"; exeName w name].

(** The release asset fetched for yt-dlp (lib.ts 268-270). *)
Definition ytdlpUrl (w : World) : string :=
  if isWin w
  then "https://github.com/yt-dlp/yt-dlp/releases/latest/download/yt-dlp.exe"
  else "https://github.com/yt-dlp/yt-dlp/releases/latest/download/yt-dlp".

(** The release asset fetched for ffmpeg (lib.ts 278-290). *)
Definition ffmpegUrl (w : World) : string :=
  if String.eqb (platform w) "win32"
  then "https://github.com/eugeneware/ffmpeg-static/releases/latest/download/win32-x64.exe"
  else if String.eqb (platform w) "darwin"
  then (if String.eqb (arch w) "arm64"
        then "https://github.com/eugeneware/ffmpeg-static/releases/latest/download/darwin-arm64"
        else "https://github.com/eugeneware/ffmpeg-static/releases/latest/download/darwin-x64")
  else (if String.eqb (arch w) "arm64"
        then "https://github.com/eugeneware/ffmpeg-static/releases/latest/download/linux-arm64"
        else "https://github.com/eugeneware/ffmpeg-static/releases/latest/download/linux-x64").

Definition ensureBinary (w : World) (name : string) : M string :=
  let exe := exeName w name in
  found <- execWhich w (whichCmd w) exe ;;
  if found then ret exe
  else
    let local := localPath w name in
    cached <- existsSync local ;;
    if cached then ret local
    else if String.eqb name "yt-dlp" then
      consoleLog ("Downloading yt-dlp → " +:+ local) ;;;
      downloadFile w (ytdlpUrl w) local ;;;
      ret local
    else if String.eqb name "ffmpeg" then
      consoleLog ("Downloading ffmpeg → " +:+ local) ;;;
      downloadFile w (ffmpegUrl w) local ;;;
      ret local
    else throw (Error (name +:+ " binary not found")).

(** [Array.prototype.push(...items)]. *)
Definition push {A} (arr items : list A) : list A := arr ++ items.

(** [options.xs?.length] as a condition: the array is present and not
    empty. *)
Definition hasLength {A} (xs : option (list A)) : bool :=
  match xs with
  | Some (_ :: _) => true
  | _ => false
  end.

(** ** The stream-pipe variant (lib.ts 210-422) *)

Module StreamPipe.

Record DownloadOptions := mkOptions {
  mode : option string;
  format : option string;
  quality : option string;
  output : option string;
  ytdlpArgs : option (list string);
  ffmpegArgs : option (list string);
}.

(** lib.ts 366-368: the three [??] defaults. *)
Definition resolvedMode (o : DownloadOptions) : string :=
  default "audio" (mode o).

Definition resolvedFormat (o : DownloadOptions) : string :=
  default (if String.eqb (resolvedMode o) "audio" then "mp3" else "mp4") (format o).

Definition resolvedQuality (o : DownloadOptions) : string :=
  default (if String.eqb (resolvedMode o) "audio" then "0" else "best") (quality o).

(** lib.ts 375-376. *)
Definition isBufferMode (o : DownloadOptions) : bool := negb (truthy (output o)).

Definition outputPath (o : DownloadOptions) : string :=
  if isBufferMode o then "-" else default "" (output o).

(** lib.ts 378-388. *)
Definition buildYtdlpArgs (o : DownloadOptions) (url : string) : list string :=
  let args := [] in
  let args :=
    if String.eqb (resolvedMode o) "audio"
    then push args ["-f"; resolvedQuality o]
    else push args ["-f"; resolvedQuality o; "--merge-output-format"; resolvedFormat o] in
  let args := push args ["--quiet"; "--no-warnings"] in
  let args := push args ["-o"; outputPath o; url] in
  if hasLength (ytdlpArgs o) then push args (default [] (ytdlpArgs o)) else args.

(** lib.ts 392-397. *)
Definition buildFfmpegArgs (o : DownloadOptions) : list string :=
  let args := [] in
  let args :=
    if String.eqb (resolvedMode o) "audio"
    then push args ["-i"; "pipe:0"; "-vn"; "-f"; resolvedFormat o; "pipe:1"]
    else push args ["-i"; "pipe:0"; "-c"; "copy"; "-f"; resolvedFormat o; "pipe:1"] in
  if hasLength (ffmpegArgs o) then push args (default [] (ffmpegArgs o)) else args.

(** What the promise executor keeps between events: the collected
    chunks and the promise it settles. *)
Record Pipeline := mkPipeline {
  chunks : list Buffer;
  promise : Outcome (option Buffer);
}.

(** [resolve] and [reject] settle a promise once; later calls do
    nothing. *)
Definition resolve (v : option Buffer) (p : Pipeline) : Pipeline :=
  match promise p with
  | Pending => mkPipeline (chunks p) (Resolved v)
  | _ => p
  end.

Definition reject (e : JsError) (p : Pipeline) : Pipeline :=
  match promise p with
  | Pending => mkPipeline (chunks p) (Rejected e)
  | _ => p
  end.

(** lib.ts 405-418: the four listeners. *)
Definition onEvent (bufferMode : bool) (ev : ProcEvent) (p : Pipeline) : M Pipeline :=
  emit (EProc ev) ;;;
  match ev with
  | FfmpegStdout chunk =>
      if bufferMode then ret (mkPipeline (push (chunks p) [chunk]) (promise p))
      else ret p
  | YtdlpStderr chunk =>
      emit (EConsoleError ["⚠️ [yt-dlp]"; chunk]) ;;;
      ret p
  | FfmpegClose code =>
      if negb (bool_decide (code = Some 0))
      then ret (reject (Error ("ffmpeg exited with code " +:+ codeToString code)) p)
      else if bufferMode then ret (resolve (Some (concat (chunks p))) p)
      else ret (resolve None p)
  | YtdlpClose code =>
      if negb (bool_decide (code = Some 0))
      then emit (EConsoleError ["⚠️ [yt-dlp] exited with code"; codeToString code]) ;;;
           ret p
      else ret p
  end.

Fixpoint dispatch (bufferMode : bool) (evs : list ProcEvent) (p : Pipeline) : M Pipeline :=
  match evs with
  | [] => ret p
  | ev :: evs' =>
      p' <- onEvent bufferMode ev p ;;
      dispatch bufferMode evs' p'
  end.

(** [await]ing the promise. *)
Definition await (p : Pipeline) : M (option Buffer) :=
  fun s => (promise p, s).

(** lib.ts 363-420. The URL is [None] when the caller passed
    [undefined]. *)
Definition download (w : World) (url : option string) (o : DownloadOptions)
  : M (option Buffer) :=
  if negb (truthy url) then throw (Error "No URL provided for download")
  else
    let url := default "" url in
    ytDlp <- ensureBinary w "yt-dlp" ;;
    ffmpeg <- ensureBinary w "ffmpeg" ;;
    emit (ESpawn ytDlp (buildYtdlpArgs o url)) ;;;
    emit (ESpawn ffmpeg (buildFfmpegArgs o)) ;;;
    emit EPipeProc ;;;
    p <- dispatch (isBufferMode o) (procEvents w) (mkPipeline [] Pending) ;;
    await p.

End StreamPipe.

(** ** The temp-file variant (lib.ts 1-210) *)

Module TempFile.

Record DownloadOptions := mkOptions {
  mode : option string;
  format : option string;
  quality : option string;
  output : option string;
  cookies : option string;
}.

(** [writeFileSync(path, data, "utf8")]. *)
Definition writeFileSync (path data : string) : M unit :=
  emit (EWriteFileSync path data) ;;;
  f <- getFs ;;
  let bytes := String.list_byte_of_string data in
  let file :=
    match files f !! path with
    | Some old => mkFile (fmode old) bytes
    | None => mkFile 438 bytes
    end in
  putFs (mkFs (<[path := file]> (files f)) (dirs f)).

(** [execFileAsync(ytDlp, args)]: the files the downloader wrote appear
    in the file system; a non-zero exit rejects. *)
Definition writeAll (written : list (string * Buffer)) (m : gmap string File)
  : gmap string File :=
  fold_left (fun acc pd => <[pd.1 := mkFile 420 pd.2]> acc) written m.

Definition execFileAsync (w : World) (cmd : string) (args : list string) : M unit :=
  emit (EExecFile cmd args) ;;;
  match ytdlpExec w args with
  | ExecFailed err => throw err
  | ExecDone written =>
      f <- getFs ;;
      putFs (mkFs (writeAll written (files f)) (dirs f))
  end.

(** [glob.sync(prefix + "*")]: the files and directories whose path is
    [prefix] followed by a name without a separator, in the order the
    library lists them. *)
Definition globMatches (w : World) (prefix p : string) : bool :=
  String.prefix prefix p &&
  match String.index 0 (sep w) (String.substring (String.length prefix) (String.length p) p) with
  | Some _ => false
  | None => true
  end.

Definition globSync (w : World) (prefix : string) : M (list string) :=
  emit (EGlobSync (prefix +:+ "*")) ;;;
  f <- getFs ;;
  ret (globOrder w
         (filter (fun p => globMatches w prefix p = true)
            ((map_to_list (files f)).*1 ++ elements (dirs f)))).

Definition readFileSync (path : string) : M Buffer :=
  emit (EReadFileSync path) ;;;
  f <- getFs ;;
  match files f !! path with
  | Some file => ret (fdata file)
  | None =>
      if bool_decide (path ∈ dirs f)
      then throw (Error "EISDIR: illegal operation on a directory, read")
      else throw (Error ("ENOENT: no such file or directory, open '" +:+ path +:+ "'"))
  end.

Definition unlinkSync (path : string) : M unit :=
  emit (EUnlinkSync path) ;;;
  f <- getFs ;;
  putFs (mkFs (delete path (files f)) (dirs f)).

(** lib.ts 182: where raw cookie data is materialised. *)
Definition cookieTempFile (w : World) : string :=
  join w [tmpdir w; "easy-dl-cookies-" +:+ numToString (now w) +:+ ".txt"].

(** lib.ts 157-204. *)
Definition download (w : World) (url : string) (o : DownloadOptions)
  : M (option Buffer) :=
  let mode := default "audio" (mode o) in
  let format := default (if String.eqb mode "audio" then "mp3" else "mp4") (format o) in
  let quality := default (if String.eqb mode "audio" then "0" else "best") (quality o) in
  ytDlp <- ensureBinary w "yt-dlp" ;;
  ffmpeg <- ensureBinary w "ffmpeg" ;;
  let args := [] in
  let args :=
    if String.eqb mode "audio"
    then push args ["-x"; "--audio-format"; format; "--audio-quality"; quality]
    else push args ["-f"; quality; "--merge-output-format"; format] in
  args <-
    (if truthy (cookies o) then
       let c := default "" (cookies o) in
       isFile <- existsSync c ;;
       if isFile then ret (push args ["--cookies"; c])
       else
         let tempFile := cookieTempFile w in
         writeFileSync tempFile c ;;;
         ret (push args ["--cookies"; tempFile])
     else ret args) ;;
  let out := default (join w [tmpdir w; "easy-dl-%(id)s.%(ext)s"]) (output o) in
  let args :=
    push args ["--quiet"; "--no-warnings"; "--ffmpeg-location"; ffmpeg; "-o"; out; url] in
  execFileAsync w ytDlp args ;;;
  if negb (truthy (output o)) then
    found <- globSync w (join w [tmpdir w; "easy-dl-"]) ;;
    match found with
    | [] => throw (Error "No output file produced")
    | filePath :: _ =>
        data <- readFileSync filePath ;;
        unlinkSync filePath ;;;
        ret (Some data)
    end
  else ret None.

End TempFile.

(** ** Observations on traces and file systems *)

(** What was added to the trace between two states. *)
Definition since (s s' : State) : list Event := drop (length (trace s)) (trace s').

(** The URLs requested over the network, in order. *)
Fixpoint requests (tr : list Event) : list string :=
  match tr with
  | [] => []
  | EHttpGet url :: tr' => url :: requests tr'
  | _ :: tr' => requests tr'
  end.

(** The response bodies streamed into files, in order. *)
Fixpoint streamed (tr : list Event) : list (string * Buffer) :=
  match tr with
  | [] => []
  | EPipeToFile path body :: tr' => (path, body) :: streamed tr'
  | _ :: tr' => streamed tr'
  end.

(** The paths deleted, in order. *)
Fixpoint unlinked (tr : list Event) : list string :=
  match tr with
  | [] => []
  | EUnlinkSync path :: tr' => path :: unlinked tr'
  | _ :: tr' => unlinked tr'
  end.

(** The status the transcoder exited with: the first ["close"] event of
    the ffmpeg process in the trace, if there is one. *)
Fixpoint ffmpegExit (tr : list Event) : option (option Z) :=
  match tr with
  | [] => None
  | EProc (FfmpegClose code) :: _ => Some code
  | _ :: tr' => ffmpegExit tr'
  end.

(** [path.isAbsolute] on POSIX. *)
Definition isAbsolute (p : string) : bool := String.prefix "/" p.

(** The file at [p] exists and its owner may execute it (bit [0o100]). *)
Definition isExecutable (f : Fs) (p : string) : bool :=
  match files f !! p with
  | Some file => Z.testbit (fmode file) 6
  | None => false
  end.

(** The cache directory [./bin]. *)
Definition cacheDir (w : World) : string := join w [cwd w; "bin"].

(** The URL [ensureBinary] fetches a tool from. *)
Definition binaryUrl (w : World) (name : string) : string :=
  if String.eqb name "yt-dlp" then ytdlpUrl w else ffmpegUrl w.

(** The state [downloadFile] reaches before the response is looked at. *)
Definition afterRequest (w : World) (url dest : string) (s : State) : State :=
  mkState
    (mkFs (<[dest := match files (fs s) !! dest with
                     | Some old => mkFile (fmode old) []
                     | None => mkFile mode_0o755 []
                     end]> (files (fs s)))
          ({[cacheDir w]} ∪ dirs (fs s)))
    (trace s ++ [EMkdirSync (cacheDir w); ECreateWriteStream dest mode_0o755; EHttpGet url]).

(** What [downloadFile] gets to pipe into its destination: the body of a
    200 response, as far as it arrives. *)
Definition pipedBytes (o : HttpOutcome) : Buffer :=
  match o with
  | Response statusCode body => if statusCode =? 200 then body else []
  | Interrupted statusCode received _ => if statusCode =? 200 then received else []
  | TransportError _ | NoResponse => []
  end.

(** ** The pipeline's listeners, event by event *)

(** What one event does to the pipeline ([onEvent] without its trace). *)
Definition handle (bufferMode : bool) (ev : ProcEvent) (p : StreamPipe.Pipeline)
  : StreamPipe.Pipeline :=
  match ev with
  | FfmpegStdout chunk =>
      if bufferMode
      then StreamPipe.mkPipeline (push (StreamPipe.chunks p) [chunk]) (StreamPipe.promise p)
      else p
  | FfmpegClose code =>
      if negb (bool_decide (code = Some 0))
      then StreamPipe.reject (Error ("ffmpeg exited with code " +:+ codeToString code)) p
      else if bufferMode
      then StreamPipe.resolve (Some (concat (StreamPipe.chunks p))) p
      else StreamPipe.resolve None p
  | YtdlpStderr _ | YtdlpClose _ => p
  end.

(** What one event adds to the trace. *)
Definition logged (ev : ProcEvent) : list Event :=
  EProc ev ::
  match ev with
  | YtdlpStderr chunk => [EConsoleError ["⚠️ [yt-dlp]"; chunk]]
  | YtdlpClose code =>
      if negb (bool_decide (code = Some 0))
      then [EConsoleError ["⚠️ [yt-dlp] exited with code"; codeToString code]]
      else []
  | _ => []
  end.

Definition runPipeline (bufferMode : bool) (evs : list ProcEvent) (p : StreamPipe.Pipeline)
  : StreamPipe.Pipeline :=
  fold_left (fun acc ev => handle bufferMode ev acc) evs p.

Definition procTrace (evs : list ProcEvent) : list Event := flat_map logged evs.

(** The first ["close"] of the transcoder among the events delivered. *)
Fixpoint firstFfmpegClose (evs : list ProcEvent) : option (option Z) :=
  match evs with
  | [] => None
  | FfmpegClose code :: _ => Some code
  | _ :: evs' => firstFfmpegClose evs'
  end.

(** The chunks the transcoder wrote to its standard output, in arrival
    order: all of them, and those that arrived before its ["close"]. *)
Fixpoint stdoutChunks (evs : list ProcEvent) : list Buffer :=
  match evs with
  | [] => []
  | FfmpegStdout chunk :: evs' => chunk :: stdoutChunks evs'
  | _ :: evs' => stdoutChunks evs'
  end.

Fixpoint stdoutBeforeClose (evs : list ProcEvent) : list Buffer :=
  match evs with
  | [] => []
  | FfmpegStdout chunk :: evs' => chunk :: stdoutBeforeClose evs'
  | FfmpegClose _ :: _ => []
  | _ :: evs' => stdoutBeforeClose evs'
  end.

(** The number of bytes the transcoder wrote to its standard output. *)
Definition totalStdoutBytes (evs : list ProcEvent) : nat :=
  sum_list (length <$> stdoutChunks evs).

(** Node delivers a process's ["close"] once its streams have ended: no
    output follows it. *)
Fixpoint closeIsLast (evs : list ProcEvent) : bool :=
  match evs with
  | [] => true
  | FfmpegClose _ :: evs' => bool_decide (stdoutChunks evs' = [])
  | _ :: evs' => closeIsLast evs'
  end.

(** How the ["close"] listener settles the promise. *)
Definition closeOutcome (bufferMode : bool) (code : option Z) (collected : list Buffer)
  : Outcome (option Buffer) :=
  if negb (bool_decide (code = Some 0))
  then Rejected (Error ("ffmpeg exited with code " +:+ codeToString code))
  else if bufferMode then Resolved (Some (concat collected))
  else Resolved None.

(** The same surroundings with other child-process events. *)
Definition withEvents (w : World) (evs : list ProcEvent) : World :=
  mkWorld (platform w) (arch w) (cwd w) (tmpdir w) (now w) (sep w) (onPath w) (http w)
    evs (ytdlpExec w) (globOrder w).

(** The same events, the downloader exiting with [code] instead. *)
Definition withYtdlpExit (code : option Z) (evs : list ProcEvent) : list ProcEvent :=
  (fun ev => match ev with YtdlpClose _ => YtdlpClose code | _ => ev end) <$> evs.

(** ** The specification's wording of two invariants *)

(** C9 as worded: whatever is returned is an absolute path to a file that
    is executable at that time. *)
Definition returnsAbsoluteExecutable (w : World) (name : string) (s : State) : Prop :=
  ∀ p s', ensureBinary w name s = (Resolved p, s') →
          isAbsolute p = true ∧ isExecutable (fs s') p = true.

(** C5 as worded: without [output] the downloader writes to ["-"] and the
    result is a non-empty buffer as long as the transcoder's output; with
    [output] the downloader writes there and nothing is returned. *)
Definition resultMatchesOutputOption (w : World) (url : option string)
    (o : StreamPipe.DownloadOptions) (s : State) : Prop :=
  ∀ r s', StreamPipe.download w url o s = (Resolved r, s') →
    (StreamPipe.output o = None →
       StreamPipe.outputPath o = "-" ∧
       ∃ buf, r = Some buf ∧ buf ≠ [] ∧ length buf = totalStdoutBytes (procEvents w)) ∧
    (∀ path, StreamPipe.output o = Some path →
       StreamPipe.outputPath o = path ∧ r = None).

(** ** Example surroundings *)

Definition emptyFs : Fs := mkFs ∅ ∅.

Definition freshState : State := mkState emptyFs [].

(** A Linux machine with nothing installed and a network that answers
    every request with [status]. *)
Definition bareLinux (status : Z) (body : Buffer) : World :=
  mkWorld "linux" "x64" "/home/u/app" "/tmp" 1700000000000 "/"
    (fun _ => false) (fun _ => Response status body) [] (fun _ => ExecDone [])
    (fun l => l).

(** A Linux machine with both tools on the system path, whose child
    processes deliver [evs]. *)
Definition installedLinux (evs : list ProcEvent) (run : list string -> ExecOutcome) : World :=
  mkWorld "linux" "x64" "/home/u/app" "/tmp" 1700000000000 "/"
    (fun _ => true) (fun _ => TransportError (Error "getaddrinfo ENOTFOUND github.com"))
    evs run (fun l => l).

(** A network that cannot be reached. *)
Definition offlineLinux : World :=
  mkWorld "linux" "x64" "/home/u/app" "/tmp" 1700000000000 "/"
    (fun _ => false) (fun _ => TransportError (Error "getaddrinfo ENOTFOUND github.com"))
    [] (fun _ => ExecDone []) (fun l => l).

(** Nothing installed, and a network that never answers. *)
Definition silentLinux : World :=
  mkWorld "linux" "x64" "/home/u/app" "/tmp" 1700000000000 "/"
    (fun _ => false) (fun _ => NoResponse) [] (fun _ => ExecDone []) (fun l => l).

(** Nothing installed, and a network whose 200 responses break off after
    [received] with [err]. *)
Definition flakyLinux (received : Buffer) (err : JsError) : World :=
  mkWorld "linux" "x64" "/home/u/app" "/tmp" 1700000000000 "/"
    (fun _ => false) (fun _ => Interrupted 200 received (Some err)) []
    (fun _ => ExecDone []) (fun l => l).

(** A cache that holds an ffmpeg file nobody may execute (mode [0o644]). *)
Definition staleCache : State :=
  mkState (mkFs {[ "/home/u/app/bin/ffmpeg" := mkFile 420 [Byte.x7f] ]} {[ "/home/u/app/bin" ]}) [].

(** Raw cookie data passed where a cookie file is expected, with an
    output path given. *)
Definition rawCookieOptions : TempFile.DownloadOptions :=
  TempFile.mkOptions None None None (Some "rickroll.mp3") (Some "SID=abc123; HSID=xyz").

(** The downloader as it behaves when all goes well, and when it fails. *)
Definition ytdlpWrites (args : list string) : ExecOutcome :=
  ExecDone [("rickroll.mp3", [Byte.x49; Byte.x44; Byte.x33])].

Definition ytdlpFails (args : list string) : ExecOutcome :=
  ExecFailed (Error "Command failed: yt-dlp").

(** ** The command line (index.ts) *)

Module Cli.

(** The object [parseArgs] fills has the keys of the temp-file variant's
    options; a key that was never assigned and a key assigned [undefined]
    read the same. *)
Definition noOptions : TempFile.DownloadOptions :=
  TempFile.mkOptions None None None None None.

(** index.ts 28-32: the assignment a recognised flag makes, [value] being
    what [args.shift()] returned; [None] for any other flag. *)
Definition assign (flag : string) (value : option string) (o : TempFile.DownloadOptions)
  : option TempFile.DownloadOptions :=
  if String.eqb flag "--mode" then
    Some (TempFile.mkOptions value (TempFile.format o) (TempFile.quality o)
            (TempFile.output o) (TempFile.cookies o))
  else if String.eqb flag "--format" then
    Some (TempFile.mkOptions (TempFile.mode o) value (TempFile.quality o)
            (TempFile.output o) (TempFile.cookies o))
  else if String.eqb flag "--quality" then
    Some (TempFile.mkOptions (TempFile.mode o) (TempFile.format o) value
            (TempFile.output o) (TempFile.cookies o))
  else if String.eqb flag "--output" then
    Some (TempFile.mkOptions (TempFile.mode o) (TempFile.format o) (TempFile.quality o)
            value (TempFile.cookies o))
  else if String.eqb flag "--cookies" then
    Some (TempFile.mkOptions (TempFile.mode o) (TempFile.format o) (TempFile.quality o)
            (TempFile.output o) value)
  else None.

(** index.ts 24-33: the [while] loop over the arguments after the URL. *)
Fixpoint parseFlags (args : list string) (o : TempFile.DownloadOptions)
  : TempFile.DownloadOptions :=
  match args with
  | [] => o
  | flag :: rest =>
      if String.eqb flag "" then o
      else
        match assign flag (head rest) o with
        | Some o' =>
            match rest with
            | [] => o'
            | _ :: rest' => parseFlags rest' o'
            end
        | None => parseFlags rest o
        end
  end.

Definition usage : string :=
  "Usage: easy-dl <url> [--mode audio|video] [--format mp3|mp4] [--quality best|320k] [--output path] [--cookies file|string]".

(** How a piece of the program ends: it returns, it ends the process with
    [process.exit(code)], or it waits for ever. *)
Inductive Run (A : Type) :=
| Returns (a : A)
| Exits (code : Z)
| Waits.
Arguments Returns {A} a.
Arguments Exits {A} code.
Arguments Waits {A}.

(** index.ts 19-43. *)
Definition parseArgs (argv : list string) (s : State)
  : Run (string * TempFile.DownloadOptions) * State :=
  let url := head argv in
  let opts := parseFlags (tail argv) noOptions in
  if negb (truthy url)
  then (Exits 1, (emit (EConsoleError [usage]) s).2)
  else (Returns (default "" url, opts), s).




(** A command line that spells out an options object. *)
Definition flagArgs (flag : string) (value : option string) : list string :=
  match value with
  | Some v => [flag; v]
  | None => []
  end.

Definition toArgv (o : TempFile.DownloadOptions) : list string :=
  flagArgs "--mode" (TempFile.mode o) ++ flagArgs "--format" (TempFile.format o) ++
  flagArgs "--quality" (TempFile.quality o) ++ flagArgs "--output" (TempFile.output o) ++
  flagArgs "--cookies" (TempFile.cookies o).

(** The value a list of flag/value pairs gives a flag: that of the last
    pair naming it, else what it had. *)
Fixpoint lastValue (flag : string) (pairs : list (string * string)) (old : option string)
  : option string :=
  match pairs with
  | [] => old
  | (f, v) :: pairs' => lastValue flag pairs' (if String.eqb f flag then Some v else old)
  end.

Definition flatten (pairs : list (string * string)) : list string :=
  flat_map (fun fv => [fv.1; fv.2]) pairs.

Definition isFlag (f : string) : bool :=
  String.eqb f "--mode" || String.eqb f "--format" || String.eqb f "--quality" ||
  String.eqb f "--output" || String.eqb f "--cookies".

End Cli.

(** ** Further observations *)

(** The processes spawned, in order. *)
Fixpoint spawned (tr : list Event) : list (string * list string) :=
  match tr with
  | [] => []
  | ESpawn cmd args :: tr' => (cmd, args) :: spawned tr'
  | _ :: tr' => spawned tr'
  end.

(** The commands run to completion with [execFile], in order. *)
Fixpoint executed (tr : list Event) : list (string * list string) :=
  match tr with
  | [] => []
  | EExecFile cmd args :: tr' => (cmd, args) :: executed tr'
  | _ :: tr' => executed tr'
  end.

(** What was written to the console's error stream, in order. *)
Fixpoint consoleErrors (tr : list Event) : list (list string) :=
  match tr with
  | [] => []
  | EConsoleError args :: tr' => args :: consoleErrors tr'
  | _ :: tr' => consoleErrors tr'
  end.

(** The files written with [writeFileSync], read, and searched for. *)
Fixpoint writtenFiles (tr : list Event) : list (string * string) :=
  match tr with
  | [] => []
  | EWriteFileSync path data :: tr' => (path, data) :: writtenFiles tr'
  | _ :: tr' => writtenFiles tr'
  end.

Fixpoint readFiles (tr : list Event) : list string :=
  match tr with
  | [] => []
  | EReadFileSync path :: tr' => path :: readFiles tr'
  | _ :: tr' => readFiles tr'
  end.

Fixpoint globbed (tr : list Event) : list string :=
  match tr with
  | [] => []
  | EGlobSync pattern :: tr' => pattern :: globbed tr'
  | _ :: tr' => globbed tr'
  end.

(** The events resolution of a tool can leave in the trace. *)
Definition resolutionEvent (e : Event) : bool :=
  match e with
  | EExecFile _ _ | EExistsSync _ | EMkdirSync _ | ECreateWriteStream _ _
  | EHttpGet _ | EPipeToFile _ _ | EConsoleLog _ => true
  | _ => false
  end.

(** The events of the transcoder alone. *)
Definition isFfmpegEvent (ev : ProcEvent) : bool :=
  match ev with
  | FfmpegStdout _ | FfmpegClose _ => true
  | YtdlpStderr _ | YtdlpClose _ => false
  end.

Definition ffmpegEvents (evs : list ProcEvent) : list ProcEvent :=
  List.filter isFfmpegEvent evs.

(** What the downloader wrote to its standard error, in arrival order. *)
Fixpoint stderrChunks (evs : list ProcEvent) : list string :=
  match evs with
  | [] => []
  | YtdlpStderr chunk :: evs' => chunk :: stderrChunks evs'
  | _ :: evs' => stderrChunks evs'
  end.

(** lib.ts 161-163 and 171-175: the temp-file variant's defaults and the
    arguments they give. *)
Definition legacyMode (o : TempFile.DownloadOptions) : string :=
  default "audio" (TempFile.mode o).

Definition legacyFormat (o : TempFile.DownloadOptions) : string :=
  default (if String.eqb (legacyMode o) "audio" then "mp3" else "mp4") (TempFile.format o).

Definition legacyQuality (o : TempFile.DownloadOptions) : string :=
  default (if String.eqb (legacyMode o) "audio" then "0" else "best") (TempFile.quality o).

Definition legacyModeArgs (o : TempFile.DownloadOptions) : list string :=
  if String.eqb (legacyMode o) "audio"
  then ["-x"; "--audio-format"; legacyFormat o; "--audio-quality"; legacyQuality o]
  else ["-f"; legacyQuality o; "--merge-output-format"; legacyFormat o].

(** lib.ts 189-190: what follows the mode and cookie arguments. *)
Definition legacyTailArgs (w : World) (o : TempFile.DownloadOptions) (ffmpeg url : string)
  : list string :=
  ["--quiet"; "--no-warnings"; "--ffmpeg-location"; ffmpeg; "-o";
   default (join w [tmpdir w; "easy-dl-%(id)s.%(ext)s"]) (TempFile.output o); url].

(** The pattern the temp-file variant looks for its result under, without
    the final star. *)
Definition resultPrefix (w : World) : string := join w [tmpdir w; "easy-dl-"].

(** The downloader's standard-error chunks that reached the console, in
    order. *)
Fixpoint forwardedStderr (tr : list Event) : list string :=
  match tr with
  | [] => []
  | EConsoleError [label; chunk] :: tr' =>
      if String.eqb label "⚠️ [yt-dlp]" then chunk :: forwardedStderr tr'
      else forwardedStderr tr'
  | _ :: tr' => forwardedStderr tr'
  end.

(** lib.ts 178-186: the cookie arguments, [f] being the file system the
    cookie option is looked up in. *)
Definition legacyCookieArgs (w : World) (o : TempFile.DownloadOptions) (f : Fs)
  : list string :=
  if truthy (TempFile.cookies o) then
    if existsIn f (default "" (TempFile.cookies o))
    then ["--cookies"; default "" (TempFile.cookies o)]
    else ["--cookies"; TempFile.cookieTempFile w]
  else [].

(** The arguments the temp-file variant runs the downloader with. *)
Definition legacyArgs (w : World) (o : TempFile.DownloadOptions) (f : Fs)
    (ffmpeg url : string) : list string :=
  legacyModeArgs o ++ legacyCookieArgs w o f ++ legacyTailArgs w o ffmpeg url.

(** The state the temp-file variant is in once it has dealt with the
    cookie option. *)
Definition afterCookies (w : World) (o : TempFile.DownloadOptions) (s : State) : State :=
  if truthy (TempFile.cookies o) then
    let c := default "" (TempFile.cookies o) in
    if existsIn (fs s) c then mkState (fs s) (trace s ++ [EExistsSync c])
    else
      let tmp := TempFile.cookieTempFile w in
      let bytes := String.list_byte_of_string c in
      let file :=
        match files (fs s) !! tmp with
        | Some old => mkFile (fmode old) bytes
        | None => mkFile 438 bytes
        end in
      mkState (mkFs (<[tmp := file]> (files (fs s))) (dirs (fs s)))
              (trace s ++ [EExistsSync c; EWriteFileSync tmp c])
  else s.

(** The files there are once the downloader has written [written]. *)
Definition filesAfterExec (w : World) (o : TempFile.DownloadOptions) (s : State)
    (written : list (string * Buffer)) : gmap string File :=
  TempFile.writeAll written (files (fs (afterCookies w o s))).

(** The file system once the downloader has written [written]. *)
Definition fsAfterExec (w : World) (o : TempFile.DownloadOptions) (s : State)
    (written : list (string * Buffer)) : Fs :=
  mkFs (filesAfterExec w o s written) (dirs (fs (afterCookies w o s))).

(** The paths of a file system that match, files first, and what
    [glob.sync] answers: the matches in the library's order. *)
Definition candidates (w : World) (prefix : string) (f : Fs) : list string :=
  filter (fun p => TempFile.globMatches w prefix p = true)
    ((map_to_list (files f)).*1 ++ elements (dirs f)).

Definition globResult (w : World) (prefix : string) (f : Fs) : list string :=
  globOrder w (candidates w prefix f).

(** What [readFileSync] fails with on a path that is no regular file. *)
Definition readError (f : Fs) (path : string) : JsError :=
  if bool_decide (path ∈ dirs f)
  then Error "EISDIR: illegal operation on a directory, read"
  else Error ("ENOENT: no such file or directory, open '" +:+ path +:+ "'").

(** The same surroundings with another order of [glob.sync]'s matches. *)
Definition withGlobOrder (w : World) (order : list string -> list string) : World :=
  mkWorld (platform w) (arch w) (cwd w) (tmpdir w) (now w) (sep w) (onPath w) (http w)
    (procEvents w) (ytdlpExec w) order.

(** A downloader that leaves two results in the temporary directory. *)
Definition ytdlpWritesTwo (args : list string) : ExecOutcome :=
  ExecDone [("/tmp/easy-dl-a.mp3", [Byte.x41]); ("/tmp/easy-dl-b.mp3", [Byte.x42])].

(** A temporary directory that holds a directory matching [easy-dl-*]. *)
Definition tmpWithDirectory : State :=
  mkState (mkFs ∅ {[ "/tmp/easy-dl-cache" ]}) [].


(** lib.ts 197-202: fetching the result from the temporary directory. *)
Definition collectResult (w : World) : M (option Buffer) :=
  found <- TempFile.globSync w (resultPrefix w) ;;
  match found with
  | [] => throw (Error "No output file produced")
  | filePath :: _ =>
      data <- TempFile.readFileSync filePath ;;
      TempFile.unlinkSync filePath ;;;
      ret (Some data)
  end.

(** * Properties *)

(** ** The monad's plumbing *)

Lemma bind_resolved {A B} (m : M A) (k : A → M B) s a s' :
  m s = (Resolved a, s') → bind m k s = k a s'.
Proof. intros H. unfold bind. by rewrite H. Qed.

Lemma since_app s s' delta : trace s' = trace s ++ delta → since s s' = delta.
Proof. intros H. unfold since. by rewrite H, drop_app_length. Qed.

Lemma since_extend s f delta : since s (mkState f (trace s ++ delta)) = delta.
Proof. by apply since_app. Qed.

Lemma streamed_app tr1 tr2 : streamed (tr1 ++ tr2) = streamed tr1 ++ streamed tr2.
Proof.
  induction tr1 as [|e tr1 IH]; [done|].
  destruct e; simpl; rewrite ?IH; done.
Qed.

(** ** [downloadFile] *)

Lemma downloadFile_run w url dest s :
  downloadFile w url dest s =
    match http w url with
    | Response statusCode body =>
        if negb (statusCode =? 200)
        then (Rejected (Error ("Download failed: " +:+ numToString statusCode)),
              afterRequest w url dest s)
        else pipeToFile dest body (afterRequest w url dest s)
    | TransportError err => (Rejected err, afterRequest w url dest s)
    | Interrupted statusCode received err =>
        if negb (statusCode =? 200)
        then (Rejected (Error ("Download failed: " +:+ numToString statusCode)),
              afterRequest w url dest s)
        else (match err with Some e => Rejected e | None => Pending end,
              (pipeToFile dest received (afterRequest w url dest s)).2)
    | NoResponse => (Pending, afterRequest w url dest s)
    end.
Proof.
  unfold downloadFile, afterRequest, mkdirSync, createWriteStream, bind, emit, getFs, putFs,
    throw, never, cacheDir; simpl.
  rewrite <- !app_assoc; simpl.
  destruct (http w url) as [st body|err|st received err|]; [|done| |done].
  - destruct (negb (st =? 200)); done.
  - destruct (negb (st =? 200)); [done|].
    unfold pipeToFile, bind, emit, getFs, putFs; simpl. by destruct err.
Qed.

(** The trace and the file system once a body, whole or in part, has been
    piped. *)
Lemma pipeToFile_run w url dest s data :
  pipeToFile dest data (afterRequest w url dest s) =
    (Resolved tt,
     mkState
       (mkFs (<[dest := match files (fs s) !! dest with
                        | Some old => mkFile (fmode old) data
                        | None => mkFile mode_0o755 data
                        end]> (files (fs s)))
             ({[cacheDir w]} ∪ dirs (fs s)))
       (trace s ++ [EMkdirSync (cacheDir w); ECreateWriteStream dest mode_0o755;
                    EHttpGet url; EPipeToFile dest data])).
Proof.
  unfold pipeToFile, afterRequest, bind, emit, getFs, putFs; simpl.
  rewrite <- app_assoc. simpl. do 3 f_equal.
  apply map_eq. intros k. destruct (decide (k = dest)) as [->|Hk].
  - rewrite lookup_alter_eq, !lookup_insert_eq. by destruct (files (fs s) !! dest).
  - by rewrite lookup_alter_ne, !lookup_insert_ne.
Qed.

(** What [downloadFile] adds to the trace, whatever comes back. *)
Lemma downloadFile_trace w url dest s :
  ∃ piped,
    trace (downloadFile w url dest s).2
      = trace s ++ [EMkdirSync (cacheDir w); ECreateWriteStream dest mode_0o755;
                    EHttpGet url] ++ piped ∧
    (piped = [] ∨ ∃ data, piped = [EPipeToFile dest data]).
Proof.
  rewrite downloadFile_run.
  destruct (http w url) as [st body|err|st received err|].
  - destruct (negb (st =? 200)); [exists []; by split; [|left]|].
    rewrite pipeToFile_run. eexists. split; [done|]. right. by eexists.
  - exists []. by split; [|left].
  - destruct (negb (st =? 200)); [exists []; by split; [|left]|].
    rewrite pipeToFile_run. eexists. split; [done|]. right. by eexists.
  - exists []. by split; [|left].
Qed.

Lemma bind_ret_state {A B} (m : M A) (b : B) s :
  (bind m (fun _ => ret b) s).2 = (m s).2.
Proof. unfold bind, ret. by destruct (m s) as [[a|e|] s']. Qed.

(** C7. Whatever the response, [downloadFile] first ensures the cache
    directory, then creates the destination file, then sends the request.
    A response whose status is not 200 rejects with the message
    "Download failed: <status>", and nothing of its body is streamed: the
    destination holds zero bytes. A transport-level error rejects with
    that very error, be it before any response or after part of a 200
    body. *)
Theorem downloadFile_failures w url dest s :
  (∃ rest, trace (downloadFile w url dest s).2 =
             trace s ++ EMkdirSync (cacheDir w) :: ECreateWriteStream dest mode_0o755
                        :: EHttpGet url :: rest
           ∧ cacheDir w ∈ dirs (fs (downloadFile w url dest s).2)) ∧
  (∀ statusCode body,
     http w url = Response statusCode body → statusCode ≠ 200 →
     (downloadFile w url dest s).1
       = Rejected (Error ("Download failed: " +:+ numToString statusCode)) ∧
     streamed (trace (downloadFile w url dest s).2) = streamed (trace s) ∧
     fdata <$> files (fs (downloadFile w url dest s).2) !! dest = Some []) ∧
  (∀ err,
     http w url = TransportError err →
     (downloadFile w url dest s).1 = Rejected err ∧
     streamed (trace (downloadFile w url dest s).2) = streamed (trace s)) ∧
  (∀ statusCode received err,
     http w url = Interrupted statusCode received err → statusCode ≠ 200 →
     (downloadFile w url dest s).1
       = Rejected (Error ("Download failed: " +:+ numToString statusCode)) ∧
     streamed (trace (downloadFile w url dest s).2) = streamed (trace s) ∧
     fdata <$> files (fs (downloadFile w url dest s).2) !! dest = Some []) ∧
  (∀ received err,
     http w url = Interrupted 200 received (Some err) →
     (downloadFile w url dest s).1 = Rejected err).
Proof.
  rewrite downloadFile_run. split_and!.
  - destruct (http w url) as [st body|err|st received err|].
    + destruct (negb (st =? 200)).
      * exists []. split; [done|]. simpl. set_solver.
      * rewrite pipeToFile_run. eexists. split; [done|]. simpl. set_solver.
    + exists []. split; [done|]. simpl. set_solver.
    + destruct (negb (st =? 200)).
      * exists []. split; [done|]. simpl. set_solver.
      * rewrite pipeToFile_run. eexists. split; [done|]. simpl. set_solver.
    + exists []. split; [done|]. simpl. set_solver.
  - intros st body -> Hst.
    assert (negb (st =? 200) = true) as -> by (apply negb_true_iff, Z.eqb_neq; done).
    simpl. split; [done|]. split.
    + rewrite streamed_app. simpl. by rewrite app_nil_r.
    + rewrite lookup_insert_eq. by destruct (files (fs s) !! dest).
  - intros err ->. simpl. split; [done|].
    rewrite streamed_app. simpl. by rewrite app_nil_r.
  - intros st received err -> Hst.
    assert (negb (st =? 200) = true) as -> by (apply negb_true_iff, Z.eqb_neq; done).
    simpl. split; [done|]. split.
    + rewrite streamed_app. simpl. by rewrite app_nil_r.
    + rewrite lookup_insert_eq. by destruct (files (fs s) !! dest).
  - by intros received err ->.
Qed.

Lemma downloadFile_failures_witness :
  http (bareLinux 404 [Byte.x3c]) "https://example.org/tool" = Response 404 [Byte.x3c] ∧
  404 ≠ 200 ∧
  (downloadFile (bareLinux 404 [Byte.x3c]) "https://example.org/tool" "/home/u/app/bin/tool"
     freshState).1 = Rejected (Error "Download failed: 404").
Proof.
  split; [reflexivity|]. split; [discriminate|].
  apply (proj1 (proj1 (proj2 (downloadFile_failures (bareLinux 404 [Byte.x3c])
           "https://example.org/tool" "/home/u/app/bin/tool" freshState)) 404 [Byte.x3c]
           eq_refl ltac:(discriminate))).
Defined.

(** ** [ensureBinary] *)

(** The state after the locate command has been run. *)
Lemma ensureBinary_run w name s :
  ensureBinary w name s =
    let exe := exeName w name in
    let local := localPath w name in
    let s1 := mkState (fs s) (trace s ++ [EExecFile (whichCmd w) [exe]]) in
    let s2 := mkState (fs s) (trace s ++ [EExecFile (whichCmd w) [exe]; EExistsSync local]) in
    if onPath w exe then (Resolved exe, s1)
    else if existsIn (fs s) local then (Resolved local, s2)
    else if String.eqb name "yt-dlp" then
      (downloadFile w (ytdlpUrl w) local ;;; ret local)
        (mkState (fs s) (trace s2 ++ [EConsoleLog ("Downloading yt-dlp → " +:+ local)]))
    else if String.eqb name "ffmpeg" then
      (downloadFile w (ffmpegUrl w) local ;;; ret local)
        (mkState (fs s) (trace s2 ++ [EConsoleLog ("Downloading ffmpeg → " +:+ local)]))
    else (Rejected (Error (name +:+ " binary not found")), s2).
Proof.
  unfold ensureBinary, execWhich, existsSync, consoleLog, emit, getFs, ret, throw.
  unfold bind at 1; simpl.
  destruct (onPath w (exeName w name)); [done|].
  unfold bind at 1; simpl. rewrite <- !app_assoc; simpl.
  destruct (existsIn (fs s) (localPath w name)); [done|].
  destruct (String.eqb name "yt-dlp").
  { unfold bind at 1; simpl. by rewrite <- !app_assoc. }
  destruct (String.eqb name "ffmpeg"); [|done].
  unfold bind at 1; simpl. by rewrite <- !app_assoc.
Qed.

(** What a fetch adds to the trace: one request, whatever comes back. *)
Lemma downloadFile_requests w url dest s :
  ∃ delta, trace (downloadFile w url dest s).2 = trace s ++ delta ∧ requests delta = [url].
Proof.
  rewrite downloadFile_run.
  destruct (http w url) as [st body|err|st received err|].
  - destruct (negb (st =? 200)); [by eexists|]. rewrite pipeToFile_run. by eexists.
  - by eexists.
  - destruct (negb (st =? 200)); [by eexists|]. rewrite pipeToFile_run. by eexists.
  - by eexists.
Qed.

Lemma fetch_then_ret_requests w url dest s :
  ∃ delta, trace ((downloadFile w url dest ;;; ret dest) s).2 = trace s ++ delta
           ∧ requests delta = [url].
Proof.
  destruct (downloadFile_requests w url dest s) as (delta & Htr & Hreq).
  exists delta. unfold bind, ret.
  destruct (downloadFile w url dest s) as [[[]|e|] s']; simpl in *; done.
Qed.

(** The asset is chosen by tool, platform and architecture alone. *)
Lemma binaryUrl_keyed w w' name :
  platform w' = platform w → arch w' = arch w → binaryUrl w' name = binaryUrl w name.
Proof.
  intros Hp Ha. unfold binaryUrl, ytdlpUrl, ffmpegUrl, isWin. by rewrite Hp, Ha.
Qed.

(** C6. Resolution of a supported tool runs the platform's locate command
    on the platform's executable name; if that succeeds the search ends
    there. Otherwise a file at [./bin/<exe>] is returned as it is, whatever
    it holds, and nothing is read, written or requested. Only when both
    miss is the network used, and then for exactly one request, to the
    asset chosen by tool, platform and architecture, whether or not the
    fetch succeeds. The assets are: for yt-dlp, [yt-dlp.exe] on win32 and
    [yt-dlp] elsewhere; for ffmpeg, [win32-x64.exe] on win32, on darwin
    [darwin-arm64] for arm64 and [darwin-x64] otherwise, and on any other
    platform [linux-arm64] for arm64 and [linux-x64] otherwise. *)
Theorem ensureBinary_resolution_order w name s :
  name = "yt-dlp" ∨ name = "ffmpeg" →
  let exe := exeName w name in
  let local := localPath w name in
  let located := EExecFile (whichCmd w) [exe] in
  (platform w = "win32" → whichCmd w = "where" ∧ exe = name +:+ ".exe") ∧
  (platform w ≠ "win32" → whichCmd w = "which" ∧ exe = name) ∧
  local = join w [cwd w; "bin"; exe] ∧
  (onPath w exe = true →
     ensureBinary w name s = (Resolved exe, mkState (fs s) (trace s ++ [located]))) ∧
  (onPath w exe = false → existsIn (fs s) local = true →
     ensureBinary w name s
       = (Resolved local, mkState (fs s) (trace s ++ [located; EExistsSync local]))) ∧
  (existsIn (fs s) local = true →
     requests (since s (ensureBinary w name s).2) = []) ∧
  (onPath w exe = false → existsIn (fs s) local = false →
     requests (since s (ensureBinary w name s).2) = [binaryUrl w name] ∧
     ∃ rest, since s (ensureBinary w name s).2 = located :: EExistsSync local :: rest) ∧
  (∀ w', platform w' = platform w → arch w' = arch w → binaryUrl w' name = binaryUrl w name) ∧
  (platform w = "win32" →
     binaryUrl w "yt-dlp"
       = "https://github.com/yt-dlp/yt-dlp/releases/latest/download/yt-dlp.exe") ∧
  (platform w ≠ "win32" →
     binaryUrl w "yt-dlp"
       = "https://github.com/yt-dlp/yt-dlp/releases/latest/download/yt-dlp") ∧
  (platform w = "win32" →
     binaryUrl w "ffmpeg"
       = "https://github.com/eugeneware/ffmpeg-static/releases/latest/download/win32-x64.exe") ∧
  (platform w = "darwin" → arch w = "arm64" →
     binaryUrl w "ffmpeg"
       = "https://github.com/eugeneware/ffmpeg-static/releases/latest/download/darwin-arm64") ∧
  (platform w = "darwin" → arch w ≠ "arm64" →
     binaryUrl w "ffmpeg"
       = "https://github.com/eugeneware/ffmpeg-static/releases/latest/download/darwin-x64") ∧
  (platform w ≠ "win32" → platform w ≠ "darwin" → arch w = "arm64" →
     binaryUrl w "ffmpeg"
       = "https://github.com/eugeneware/ffmpeg-static/releases/latest/download/linux-arm64") ∧
  (platform w ≠ "win32" → platform w ≠ "darwin" → arch w ≠ "arm64" →
     binaryUrl w "ffmpeg"
       = "https://github.com/eugeneware/ffmpeg-static/releases/latest/download/linux-x64").
Proof.
  intros Hname exe local located.
  assert (String.eqb name "yt-dlp" = false → String.eqb name "ffmpeg" = true) as Hff.
  { destruct Hname as [-> | ->]; done. }
  split; [|split; [|split; [|split; [|split; [|split; [|split; [|split_and!]]]]]]].
  - intros Hp. subst exe. unfold whichCmd, exeName, isWin. by rewrite Hp.
  - intros Hp. subst exe. unfold whichCmd, exeName, isWin.
    by apply String.eqb_neq in Hp as ->.
  - done.
  - intros Hon. rewrite ensureBinary_run. simpl. fold exe. by rewrite Hon.
  - intros Hon Hex. rewrite ensureBinary_run. simpl. fold exe local. by rewrite Hon, Hex.
  - intros Hex. rewrite ensureBinary_run. simpl. fold exe local. rewrite Hex.
    destruct (onPath w exe); simpl; by rewrite since_extend.
  - intros Hon Hex. rewrite ensureBinary_run. simpl. fold exe local located.
    rewrite Hon, Hex. unfold binaryUrl.
    destruct (String.eqb name "yt-dlp") eqn:Hyt; [|rewrite (Hff eq_refl)].
    + match goal with |- context [(_ ;;; _) ?st] =>
        destruct (fetch_then_ret_requests w (ytdlpUrl w) local st) as (d & Htr & Hd) end.
      erewrite (since_app s _ ([located; EExistsSync local; EConsoleLog _] ++ d)).
      2:{ rewrite Htr. simpl. rewrite <- !app_assoc. reflexivity. }
      simpl. split; [done|by eexists].
    + match goal with |- context [(_ ;;; _) ?st] =>
        destruct (fetch_then_ret_requests w (ffmpegUrl w) local st) as (d & Htr & Hd) end.
      erewrite (since_app s _ ([located; EExistsSync local; EConsoleLog _] ++ d)).
      2:{ rewrite Htr. simpl. rewrite <- !app_assoc. reflexivity. }
      simpl. split; [done|by eexists].
  - intros w'. apply binaryUrl_keyed.
  - intros Hp. unfold binaryUrl, ytdlpUrl, isWin. simpl. by rewrite Hp.
  - intros Hp%String.eqb_neq. unfold binaryUrl, ytdlpUrl, isWin. simpl. by rewrite Hp.
  - intros Hp. unfold binaryUrl, ffmpegUrl. simpl. by rewrite Hp.
  - intros Hp Ha. unfold binaryUrl, ffmpegUrl. simpl. by rewrite Hp, Ha.
  - intros Hp Ha%String.eqb_neq. unfold binaryUrl, ffmpegUrl. simpl. by rewrite Hp, Ha.
  - intros Hw%String.eqb_neq Hd%String.eqb_neq Ha. unfold binaryUrl, ffmpegUrl. simpl.
    by rewrite Hw, Hd, Ha.
  - intros Hw%String.eqb_neq Hd%String.eqb_neq Ha%String.eqb_neq.
    unfold binaryUrl, ffmpegUrl. simpl. by rewrite Hw, Hd, Ha.
Qed.

Lemma ensureBinary_resolution_order_witness :
  onPath (bareLinux 200 [Byte.x7f]) (exeName (bareLinux 200 [Byte.x7f]) "ffmpeg") = false ∧
  existsIn (fs freshState) (localPath (bareLinux 200 [Byte.x7f]) "ffmpeg") = false ∧
  requests (since freshState (ensureBinary (bareLinux 200 [Byte.x7f]) "ffmpeg" freshState).2)
    = ["https://github.com/eugeneware/ffmpeg-static/releases/latest/download/linux-x64"].
Proof.
  split; [reflexivity|]. split; [vm_compute; reflexivity|].
  apply (proj1 (proj2 (proj2 (proj2 (proj2 (proj2 (proj2
           (ensureBinary_resolution_order (bareLinux 200 [Byte.x7f]) "ffmpeg" freshState
              (or_intror eq_refl)))))))) eq_refl).
  vm_compute; reflexivity.
Defined.

Lemma isAbsolute_app a b : isAbsolute a = true → isAbsolute (a +:+ b) = true.
Proof.
  unfold isAbsolute. destruct a as [|c a]; [done|].
  change (String c a +:+ b) with (String c (a +:+ b)). cbn [String.prefix].
  destruct (Ascii.ascii_dec _ c); [|done]. intros _. by destruct (a +:+ b).
Qed.

Lemma localPath_absolute w name :
  isAbsolute (cwd w) = true → isAbsolute (localPath w name) = true.
Proof. intros H. unfold localPath, join; simpl. by do 2 apply isAbsolute_app. Qed.

Lemma existsIn_false f p : existsIn f p = false → files f !! p = None.
Proof.
  unfold existsIn. intros [H _]%orb_false_iff.
  apply bool_decide_eq_false in H. by apply eq_None_not_Some.
Qed.

(** A fetch that succeeds into a path that did not exist leaves there a
    file of mode [0o755] holding the response body. *)
Lemma downloadFile_resolved w url dest s s' :
  files (fs s) !! dest = None →
  downloadFile w url dest s = (Resolved tt, s') →
  ∃ body, http w url = Response 200 body ∧
          files (fs s') !! dest = Some (mkFile mode_0o755 body).
Proof.
  intros Hnone. rewrite downloadFile_run.
  destruct (http w url) as [st body|err|st received err|]; [|done| |done].
  - destruct (st =? 200) eqn:Hst; simpl; [|done].
    apply Z.eqb_eq in Hst as ->.
    rewrite pipeToFile_run. intros [= <-]. simpl.
    exists body. split; [done|]. by rewrite lookup_insert_eq, Hnone.
  - destruct (negb (st =? 200)); [done|]. by destruct err.
Qed.

(** C9, amended. A tool that resolves was either found by the locate
    command, or the path returned is [<cwd>/bin/<exe>], absolute whenever
    the working directory is. In the second case either the file was
    already in the cache, and is returned untouched and unexamined, or it
    has just been fetched into a new file of mode [0o755] and is
    executable. *)
Theorem ensureBinary_returned_path w name s p s' :
  ensureBinary w name s = (Resolved p, s') →
  onPath w (exeName w name) = true ∨
  (onPath w (exeName w name) = false ∧
   p = localPath w name ∧
   (isAbsolute (cwd w) = true → isAbsolute p = true) ∧
   ((existsIn (fs s) p = true ∧ fs s' = fs s) ∨
    (existsIn (fs s) p = false ∧
     fmode <$> files (fs s') !! p = Some mode_0o755 ∧
     isExecutable (fs s') p = true))).
Proof.
  rewrite ensureBinary_run; simpl.
  destruct (onPath w (exeName w name)) eqn:Hon; [by left|].
  intros Hrun. right. split; [done|]. revert Hrun.
  assert (∀ url st,
    fs st = fs s →
    existsIn (fs s) (localPath w name) = false →
    (downloadFile w url (localPath w name) ;;; ret (localPath w name)) st = (Resolved p, s') →
    p = localPath w name ∧
    fmode <$> files (fs s') !! p = Some mode_0o755 ∧ isExecutable (fs s') p = true) as Hfetch.
  { intros url st Hfs Hex. unfold bind, ret.
    destruct (downloadFile w url (localPath w name) st) as [[[]|e|] s1] eqn:Hdl; [|done..].
    intros [= <- <-].
    apply downloadFile_resolved in Hdl as (body & _ & Hfile).
    - split; [done|]. unfold isExecutable. rewrite Hfile. done.
    - rewrite Hfs. by apply existsIn_false. }
  destruct (existsIn (fs s) (localPath w name)) eqn:Hex.
  { intros [= <- <-]. split; [done|]. split; [apply localPath_absolute|]. left. done. }
  destruct (String.eqb name "yt-dlp").
  { intros H. apply Hfetch in H as (-> & Hm & Hx); [|done..].
    split; [done|]. split; [apply localPath_absolute|]. right. done. }
  destruct (String.eqb name "ffmpeg"); [|done].
  intros H. apply Hfetch in H as (-> & Hm & Hx); [|done..].
  split; [done|]. split; [apply localPath_absolute|]. right. done.
Qed.

Lemma ensureBinary_returned_path_witness :
  ensureBinary (bareLinux 200 [Byte.x7f; Byte.x45]) "ffmpeg" freshState
    = (Resolved "/home/u/app/bin/ffmpeg",
       (ensureBinary (bareLinux 200 [Byte.x7f; Byte.x45]) "ffmpeg" freshState).2) ∧
  (onPath (bareLinux 200 [Byte.x7f; Byte.x45]) "ffmpeg" = true ∨
   (onPath (bareLinux 200 [Byte.x7f; Byte.x45]) "ffmpeg" = false ∧
    "/home/u/app/bin/ffmpeg" = localPath (bareLinux 200 [Byte.x7f; Byte.x45]) "ffmpeg" ∧
    (isAbsolute "/home/u/app" = true → isAbsolute "/home/u/app/bin/ffmpeg" = true) ∧
    ((existsIn (fs freshState) "/home/u/app/bin/ffmpeg" = true ∧
      fs (ensureBinary (bareLinux 200 [Byte.x7f; Byte.x45]) "ffmpeg" freshState).2
        = fs freshState) ∨
     (existsIn (fs freshState) "/home/u/app/bin/ffmpeg" = false ∧
      fmode <$> files (fs (ensureBinary (bareLinux 200 [Byte.x7f; Byte.x45]) "ffmpeg"
                             freshState).2) !! "/home/u/app/bin/ffmpeg" = Some mode_0o755 ∧
      isExecutable (fs (ensureBinary (bareLinux 200 [Byte.x7f; Byte.x45]) "ffmpeg"
                          freshState).2) "/home/u/app/bin/ffmpeg" = true)))).
Proof.
  assert (ensureBinary (bareLinux 200 [Byte.x7f; Byte.x45]) "ffmpeg" freshState
    = (Resolved "/home/u/app/bin/ffmpeg",
       (ensureBinary (bareLinux 200 [Byte.x7f; Byte.x45]) "ffmpeg" freshState).2)) as H
    by (vm_compute; reflexivity).
  split; [exact H|].
  exact (ensureBinary_returned_path _ _ _ _ _ H).
Defined.

(** The cache is not examined: a file there that nobody may execute is
    returned all the same. *)
Lemma cached_file_need_not_be_executable :
  ¬ returnsAbsoluteExecutable offlineLinux "ffmpeg" staleCache.
Proof.
  intros H.
  destruct (H "/home/u/app/bin/ffmpeg"
              (mkState (fs staleCache)
                 [EExecFile "which" ["ffmpeg"]; EExistsSync "/home/u/app/bin/ffmpeg"]))
    as [_ Hx].
  - vm_compute. reflexivity.
  - vm_compute in Hx. discriminate.
Qed.

(** A tool found on the system path is returned by its bare name. *)
Example found_on_path_returns_bare_name :
  (ensureBinary (installedLinux [] (fun _ => ExecDone [])) "yt-dlp" freshState).1
    = Resolved "yt-dlp"
  ∧ isAbsolute "yt-dlp" = false.
Proof. split; vm_compute; reflexivity. Qed.

(** ** [download], stream-pipe variant *)

(** C10. Called without a URL, or with the empty string, [download]
    rejects with "No URL provided for download" and has done nothing by
    then: the file system is as it was, and the trace has not grown by a
    single command, request or spawn. *)
Theorem download_rejects_missing_url w url o s :
  url = None ∨ url = Some "" →
  StreamPipe.download w url o s = (Rejected (Error "No URL provided for download"), s).
Proof. by intros [-> | ->]. Qed.

Lemma download_rejects_missing_url_witness :
  StreamPipe.download (bareLinux 200 []) (Some "")
    (StreamPipe.mkOptions (Some "video") None None (Some "out.mp4") None None) freshState
  = (Rejected (Error "No URL provided for download"), freshState).
Proof. apply download_rejects_missing_url. right. reflexivity. Defined.

(** *** The listeners *)

Lemma onEvent_run bm ev p s :
  StreamPipe.onEvent bm ev p s
    = (Resolved (handle bm ev p), mkState (fs s) (trace s ++ logged ev)).
Proof.
  unfold StreamPipe.onEvent, bind, emit, ret, handle, logged.
  destruct ev as [chunk|chunk|code|code]; simpl.
  - by destruct bm.
  - by rewrite <- app_assoc.
  - destruct (negb (bool_decide (code = Some 0))); [done|]. by destruct bm.
  - destruct (negb (bool_decide (code = Some 0))); [|done]. simpl. by rewrite <- app_assoc.
Qed.

Lemma dispatch_run bm evs : ∀ p s,
  StreamPipe.dispatch bm evs p s
    = (Resolved (runPipeline bm evs p), mkState (fs s) (trace s ++ procTrace evs)).
Proof.
  induction evs as [|ev evs IH]; intros p s.
  - unfold procTrace; simpl. rewrite app_nil_r. by destruct s.
  - cbn [StreamPipe.dispatch]. unfold bind at 1. rewrite onEvent_run, IH. simpl.
    unfold procTrace; simpl. by rewrite <- app_assoc.
Qed.

Lemma ffmpegExit_app tr1 tr2 :
  ffmpegExit (tr1 ++ tr2)
    = match ffmpegExit tr1 with Some code => Some code | None => ffmpegExit tr2 end.
Proof.
  induction tr1 as [|e tr1 IH]; [done|].
  destruct e as [| | | | | | | | | | | | | |[]]; simpl; done.
Qed.

Lemma ffmpegExit_procTrace evs : ffmpegExit (procTrace evs) = firstFfmpegClose evs.
Proof.
  induction evs as [|ev evs IH]; [done|].
  unfold procTrace in *. destruct ev as [chunk|chunk|code|code]; simpl; try done.
  destruct (negb (bool_decide (code = Some 0))); done.
Qed.

(** Once settled, a promise stays as it is. *)
Lemma handle_settled bm ev p :
  StreamPipe.promise p ≠ Pending →
  StreamPipe.promise (handle bm ev p) = StreamPipe.promise p.
Proof.
  intros Hp. destruct ev as [chunk|chunk|code|code]; simpl; try done.
  - by destruct bm.
  - unfold StreamPipe.reject, StreamPipe.resolve.
    destruct (StreamPipe.promise p) eqn:E; [| |done];
      destruct (negb _), bm; by rewrite ?E.
Qed.

Lemma runPipeline_cons bm ev evs p :
  runPipeline bm (ev :: evs) p = runPipeline bm evs (handle bm ev p).
Proof. reflexivity. Qed.

Lemma runPipeline_settled bm evs : ∀ p,
  StreamPipe.promise p ≠ Pending →
  StreamPipe.promise (runPipeline bm evs p) = StreamPipe.promise p.
Proof.
  induction evs as [|ev evs IH]; intros p Hp; [done|].
  rewrite runPipeline_cons, IH; rewrite handle_settled; done.
Qed.

(** A pending promise is settled by the transcoder's first ["close"], from
    the chunks collected until then. *)
Lemma runPipeline_pending bm evs : ∀ p,
  StreamPipe.promise p = Pending →
  StreamPipe.promise (runPipeline bm evs p)
    = match firstFfmpegClose evs with
      | None => Pending
      | Some code =>
          closeOutcome bm code
            (StreamPipe.chunks p ++ (if bm then stdoutBeforeClose evs else []))
      end.
Proof.
  induction evs as [|ev evs IH]; intros p Hp; [done|].
  rewrite runPipeline_cons. destruct ev as [chunk|chunk|code|code]; simpl.
  - rewrite IH; [|by destruct bm].
    destruct (firstFfmpegClose evs); [|done].
    destruct bm; simpl; [|done]. unfold push. by rewrite <- app_assoc.
  - by apply IH.
  - rewrite runPipeline_settled.
    + unfold closeOutcome, StreamPipe.reject, StreamPipe.resolve.
      rewrite Hp. destruct (negb _), bm; simpl; rewrite ?app_nil_r; done.
    + unfold StreamPipe.reject, StreamPipe.resolve.
      rewrite Hp. destruct (negb _), bm; done.
  - by apply IH.
Qed.

(** The events of the child processes do not bear on resolution. *)
Lemma ensureBinary_withEvents w evs name s :
  ensureBinary (withEvents w evs) name s = ensureBinary w name s.
Proof. reflexivity. Qed.

(** Resolution delivers no child-process event. *)
Lemma ensureBinary_delta w name s :
  ∃ delta, trace (ensureBinary w name s).2 = trace s ++ delta ∧ ffmpegExit delta = None.
Proof.
  assert (∀ url dest st,
    ∃ delta, trace ((downloadFile w url dest ;;; ret dest) st).2 = trace st ++ delta
             ∧ ffmpegExit delta = None) as Hfetch.
  { intros url dest st. rewrite bind_ret_state.
    destruct (downloadFile_trace w url dest st) as (piped & -> & [->|[data ->]]);
      by eexists. }
  rewrite ensureBinary_run; simpl.
  destruct (onPath w (exeName w name)); [by eexists|].
  destruct (existsIn (fs s) (localPath w name)); [by eexists|].
  destruct (String.eqb name "yt-dlp").
  { match goal with |- context [(_ ;;; _) ?st] =>
      destruct (Hfetch (ytdlpUrl w) (localPath w name) st) as (d & -> & Hd) end.
    simpl. eexists. split; [by rewrite <- !app_assoc|]. done. }
  destruct (String.eqb name "ffmpeg"); [|by eexists].
  match goal with |- context [(_ ;;; _) ?st] =>
    destruct (Hfetch (ffmpegUrl w) (localPath w name) st) as (d & -> & Hd) end.
  simpl. eexists. split; [by rewrite <- !app_assoc|]. done.
Qed.

(** [download] once the URL has passed the guard. *)
Lemma download_run w u o s :
  u ≠ "" →
  StreamPipe.download w (Some u) o s =
    match ensureBinary w "yt-dlp" s with
    | (Resolved ytDlp, s1) =>
        match ensureBinary w "ffmpeg" s1 with
        | (Resolved ffmpeg, s2) =>
            (StreamPipe.promise
               (runPipeline (StreamPipe.isBufferMode o) (procEvents w)
                  (StreamPipe.mkPipeline [] Pending)),
             mkState (fs s2)
               (trace s2 ++ [ESpawn ytDlp (StreamPipe.buildYtdlpArgs o u);
                             ESpawn ffmpeg (StreamPipe.buildFfmpegArgs o);
                             EPipeProc] ++ procTrace (procEvents w)))
        | (Rejected e, s2) => (Rejected e, s2)
        | (Pending, s2) => (Pending, s2)
        end
    | (Rejected e, s1) => (Rejected e, s1)
    | (Pending, s1) => (Pending, s1)
    end.
Proof.
  intros Hu. unfold StreamPipe.download.
  assert (truthy (Some u) = true) as ->.
  { simpl. by apply negb_true_iff, String.eqb_neq. }
  cbn [negb default]. unfold bind at 1.
  destruct (ensureBinary w "yt-dlp" s) as [[ytDlp|e|] s1]; [|done..].
  unfold bind at 1.
  destruct (ensureBinary w "ffmpeg" s1) as [[ffmpeg|e|] s2]; [|done..].
  unfold bind, emit, StreamPipe.await. simpl. rewrite dispatch_run. simpl.
  by rewrite <- !app_assoc.
Qed.

(** What [download] leaves in the trace and how it settles, case by case:
    either it never reached the processes, and then it has not resolved
    and no process event was delivered; or it spawned both, and then the
    listeners decide. *)
Lemma download_cases w url o s :
  (∃ delta,
     trace (StreamPipe.download w url o s).2 = trace s ++ delta ∧
     ffmpegExit delta = None ∧
     isResolved (StreamPipe.download w url o s).1 = false) ∨
  (∃ u ytDlp ffmpeg pre,
     url = Some u ∧ u ≠ "" ∧
     trace (StreamPipe.download w url o s).2
       = trace s ++ pre ++ [ESpawn ytDlp (StreamPipe.buildYtdlpArgs o u);
                            ESpawn ffmpeg (StreamPipe.buildFfmpegArgs o);
                            EPipeProc] ++ procTrace (procEvents w) ∧
     ffmpegExit pre = None ∧
     (StreamPipe.download w url o s).1
       = StreamPipe.promise
           (runPipeline (StreamPipe.isBufferMode o) (procEvents w)
              (StreamPipe.mkPipeline [] Pending))).
Proof.
  destruct url as [u|]; [|left; exists []; by rewrite app_nil_r].
  destruct (decide (u = "")) as [->|Hu]; [left; exists []; by rewrite app_nil_r|].
  rewrite download_run by done.
  destruct (ensureBinary_delta w "yt-dlp" s) as (d1 & Ht1 & Hd1).
  destruct (ensureBinary w "yt-dlp" s) as [[ytDlp|e|] s1]; simpl in Ht1;
    [|left; eexists; by split_and!..].
  destruct (ensureBinary_delta w "ffmpeg" s1) as (d2 & Ht2 & Hd2).
  assert (ffmpegExit (d1 ++ d2) = None) as Hd12 by (by rewrite ffmpegExit_app, Hd1).
  destruct (ensureBinary w "ffmpeg" s1) as [[ffmpeg|e|] s2]; simpl in Ht2;
    rewrite Ht1, <- app_assoc in Ht2;
    [|left; eexists; by split_and!..].
  right. exists u, ytDlp, ffmpeg, (d1 ++ d2). split_and!; try done.
  simpl. by rewrite Ht2, <- !app_assoc.
Qed.

Lemma runPipeline_withYtdlpExit bm code evs : ∀ p,
  runPipeline bm (withYtdlpExit code evs) p = runPipeline bm evs p.
Proof.
  induction evs as [|ev evs IH]; intros p; [done|].
  unfold withYtdlpExit in *. rewrite fmap_cons, !runPipeline_cons, IH.
  by destruct ev.
Qed.

Lemma closeOutcome_resolved bm code collected :
  isResolved (closeOutcome bm code collected) = true ↔ code = Some 0.
Proof.
  unfold closeOutcome. destruct (decide (code = Some 0)) as [->|Hne].
  - by destruct bm.
  - rewrite bool_decide_eq_false_2 by done. simpl. split; [done|]. by intros ->.
Qed.

Lemma closeOutcome_rejected bm code collected :
  code ≠ Some 0 →
  closeOutcome bm code collected
    = Rejected (Error ("ffmpeg exited with code " +:+ codeToString code)).
Proof. intros Hne. unfold closeOutcome. by rewrite bool_decide_eq_false_2. Qed.

(** The downloader's exit code does not reach the promise. *)
Lemma download_ignores_ytdlp_exit w url o s code :
  (StreamPipe.download (withEvents w (withYtdlpExit code (procEvents w))) url o s).1
    = (StreamPipe.download w url o s).1.
Proof.
  destruct url as [u|]; [|done].
  destruct (decide (u = "")) as [->|Hu]; [done|].
  rewrite !download_run by done. rewrite !ensureBinary_withEvents.
  destruct (ensureBinary w "yt-dlp" s) as [[ytDlp|e|] s1]; [|done..].
  rewrite !ensureBinary_withEvents.
  destruct (ensureBinary w "ffmpeg" s1) as [[ffmpeg|e|] s2]; [|done..].
  simpl. by rewrite runPipeline_withYtdlpExit.
Qed.

(** C1. [download] resolves exactly when it got as far as running the
    two processes and the transcoder's first ["close"] carries status 0.
    With both tools resolved, any other status rejects with "ffmpeg
    exited with code <status>", a message from which the status can be
    read back. The downloader's exit code plays no part: with any other
    code in its place the promise settles the same way, and a non-zero
    code only writes a warning to the console. *)
Theorem download_succeeds_iff_ffmpeg_exits_zero w url o s :
  (isResolved (StreamPipe.download w url o s).1 = true ↔
     ∃ u ytDlp s1 ffmpeg s2,
       url = Some u ∧ u ≠ "" ∧
       ensureBinary w "yt-dlp" s = (Resolved ytDlp, s1) ∧
       ensureBinary w "ffmpeg" s1 = (Resolved ffmpeg, s2) ∧
       firstFfmpegClose (procEvents w) = Some (Some 0)) ∧
  (∀ u ytDlp s1 ffmpeg s2 code,
     url = Some u → u ≠ "" →
     ensureBinary w "yt-dlp" s = (Resolved ytDlp, s1) →
     ensureBinary w "ffmpeg" s1 = (Resolved ffmpeg, s2) →
     firstFfmpegClose (procEvents w) = Some code → code ≠ Some 0 →
     (StreamPipe.download w url o s).1
       = Rejected (Error ("ffmpeg exited with code " +:+ codeToString code))) ∧
  (∀ n m, codeToString (Some n) = codeToString (Some m) → n = m) ∧
  (∀ code,
     (StreamPipe.download (withEvents w (withYtdlpExit code (procEvents w))) url o s).1
       = (StreamPipe.download w url o s).1) ∧
  (∀ bm code p st, code ≠ Some 0 →
     StreamPipe.onEvent bm (YtdlpClose code) p st
       = (Resolved p,
          mkState (fs st)
            (trace st ++ [EProc (YtdlpClose code);
                          EConsoleError ["⚠️ [yt-dlp] exited with code";
                                         codeToString code]]))).
Proof.
  split_and!.
  - split.
    + intros Hres.
      destruct url as [u|]; [|done].
      destruct (decide (u = "")) as [->|Hu]; [done|].
      rewrite download_run in Hres by done.
      destruct (ensureBinary w "yt-dlp" s) as [[ytDlp|e|] s1]; [|done..].
      destruct (ensureBinary w "ffmpeg" s1) as [[ffmpeg|e|] s2] eqn:Hf; [|done..].
      exists u, ytDlp, s1, ffmpeg, s2. split_and!; try done.
      simpl in Hres. rewrite runPipeline_pending in Hres by done.
      destruct (firstFfmpegClose (procEvents w)) as [code|]; [|done].
      apply closeOutcome_resolved in Hres. by rewrite Hres.
    + intros (u & ytDlp & s1 & ffmpeg & s2 & -> & Hu & Hy & Hf & Hclose).
      rewrite download_run, Hy, Hf by done. simpl.
      rewrite runPipeline_pending, Hclose by done. by apply closeOutcome_resolved.
  - intros u ytDlp s1 ffmpeg s2 code -> Hu Hy Hf Hclose Hne.
    rewrite download_run, Hy, Hf by done. simpl.
    rewrite runPipeline_pending, Hclose by done. by apply closeOutcome_rejected.
  - intros n m H. by apply pretty_Z_inj.
  - intros code. apply download_ignores_ytdlp_exit.
  - intros bm code p st Hne. rewrite onEvent_run. unfold logged, handle.
    by rewrite bool_decide_eq_false_2.
Qed.

Lemma download_succeeds_iff_ffmpeg_exits_zero_witness :
  Some "https://youtu.be/dQw4w9WgXcQ" = Some "https://youtu.be/dQw4w9WgXcQ" ∧
  "https://youtu.be/dQw4w9WgXcQ" ≠ "" ∧
  firstFfmpegClose
    (procEvents
       (installedLinux [FfmpegStdout [Byte.x49]; YtdlpClose (Some 0); FfmpegClose (Some 1)]
          (fun _ => ExecDone []))) = Some (Some 1) ∧
  Some 1 ≠ Some 0 ∧
  (StreamPipe.download
     (installedLinux [FfmpegStdout [Byte.x49]; YtdlpClose (Some 0); FfmpegClose (Some 1)]
        (fun _ => ExecDone []))
     (Some "https://youtu.be/dQw4w9WgXcQ")
     (StreamPipe.mkOptions None None None None None None) freshState).1
    = Rejected (Error "ffmpeg exited with code 1").
Proof.
  split; [reflexivity|]. split; [discriminate|]. split; [reflexivity|].
  split; [discriminate|].
  apply (proj1 (proj2 (download_succeeds_iff_ffmpeg_exits_zero
           (installedLinux [FfmpegStdout [Byte.x49]; YtdlpClose (Some 0); FfmpegClose (Some 1)]
              (fun _ => ExecDone []))
           (Some "https://youtu.be/dQw4w9WgXcQ")
           (StreamPipe.mkOptions None None None None None None) freshState))
         "https://youtu.be/dQw4w9WgXcQ" "yt-dlp"
         (mkState emptyFs [EExecFile "which" ["yt-dlp"]])
         "ffmpeg"
         (mkState emptyFs [EExecFile "which" ["yt-dlp"]; EExecFile "which" ["ffmpeg"]])
         (Some 1) eq_refl ltac:(discriminate) eq_refl eq_refl eq_refl ltac:(discriminate)).
Defined.

(** A run in which the downloader fails and the transcoder does not. *)
Example partial_stream_succeeds :
  (StreamPipe.download
     (installedLinux [FfmpegStdout [Byte.x49; Byte.x44]; YtdlpClose (Some 1);
                      FfmpegClose (Some 0)] (fun _ => ExecDone []))
     (Some "https://youtu.be/dQw4w9WgXcQ")
     (StreamPipe.mkOptions None None None None None None) freshState).1
  = Resolved (Some [Byte.x49; Byte.x44]).
Proof. vm_compute. reflexivity. Qed.

(** A run in which the transcoder fails and the downloader does not. *)
Example transcoder_failure_rejects :
  (StreamPipe.download
     (installedLinux [YtdlpClose (Some 0); FfmpegClose (Some 1)] (fun _ => ExecDone []))
     (Some "https://youtu.be/dQw4w9WgXcQ")
     (StreamPipe.mkOptions (Some "video") (Some "mp4") None (Some "/tmp/out.mp4") None None)
     freshState).1
  = Rejected (Error "ffmpeg exited with code 1").
Proof. vm_compute. reflexivity. Qed.

(** *** Defaults and argument lists *)

(** C2. An absent mode is "audio"; an absent format is "mp3" in audio mode
    and "mp4" in video mode; an absent quality is "0" in audio mode and
    "best" in video mode; a value that is given is the value used. *)
Theorem defaulting_rule o :
  (StreamPipe.mode o = None → StreamPipe.resolvedMode o = "audio") ∧
  (StreamPipe.format o = None → StreamPipe.resolvedMode o = "audio" →
     StreamPipe.resolvedFormat o = "mp3") ∧
  (StreamPipe.format o = None → StreamPipe.resolvedMode o = "video" →
     StreamPipe.resolvedFormat o = "mp4") ∧
  (StreamPipe.quality o = None → StreamPipe.resolvedMode o = "audio" →
     StreamPipe.resolvedQuality o = "0") ∧
  (StreamPipe.quality o = None → StreamPipe.resolvedMode o = "video" →
     StreamPipe.resolvedQuality o = "best") ∧
  (∀ m, StreamPipe.mode o = Some m → StreamPipe.resolvedMode o = m) ∧
  (∀ f, StreamPipe.format o = Some f → StreamPipe.resolvedFormat o = f) ∧
  (∀ q, StreamPipe.quality o = Some q → StreamPipe.resolvedQuality o = q).
Proof.
  unfold StreamPipe.resolvedFormat, StreamPipe.resolvedQuality, StreamPipe.resolvedMode.
  split_and!.
  - by intros ->.
  - by intros -> ->.
  - by intros -> ->.
  - by intros -> ->.
  - by intros -> ->.
  - by intros m ->.
  - by intros f ->.
  - by intros q ->.
Qed.

Lemma defaulting_rule_witness :
  StreamPipe.format (StreamPipe.mkOptions (Some "video") None (Some "1080p") None None None)
    = None ∧
  StreamPipe.resolvedMode (StreamPipe.mkOptions (Some "video") None (Some "1080p") None None None)
    = "video" ∧
  StreamPipe.resolvedFormat (StreamPipe.mkOptions (Some "video") None (Some "1080p") None None None)
    = "mp4".
Proof.
  split; [reflexivity|]. split; [reflexivity|].
  apply (proj1 (proj2 (proj2 (defaulting_rule
           (StreamPipe.mkOptions (Some "video") None (Some "1080p") None None None))))
         eq_refl eq_refl).
Defined.

(** C3. The downloader's arguments are, in this order: the select-format
    flag with the resolved quality; in any mode but audio (so in video
    mode) the output-container flag with the resolved format; the quiet
    and no-warnings flags; the output flag with the output target,
    followed by the URL; and then the caller's extra arguments, as given. *)
Theorem ytdlpArgs_layout o url :
  (StreamPipe.resolvedMode o = "audio" →
     StreamPipe.buildYtdlpArgs o url
       = ["-f"; StreamPipe.resolvedQuality o;
          "--quiet"; "--no-warnings"; "-o"; StreamPipe.outputPath o; url]
         ++ default [] (StreamPipe.ytdlpArgs o)) ∧
  (StreamPipe.resolvedMode o ≠ "audio" →
     StreamPipe.buildYtdlpArgs o url
       = ["-f"; StreamPipe.resolvedQuality o;
          "--merge-output-format"; StreamPipe.resolvedFormat o;
          "--quiet"; "--no-warnings"; "-o"; StreamPipe.outputPath o; url]
         ++ default [] (StreamPipe.ytdlpArgs o)).
Proof.
  unfold StreamPipe.buildYtdlpArgs, push. split.
  - intros ->. simpl. by destruct (StreamPipe.ytdlpArgs o) as [[|a l]|].
  - intros Hm. apply String.eqb_neq in Hm as ->. simpl.
    by destruct (StreamPipe.ytdlpArgs o) as [[|a l]|].
Qed.

Lemma ytdlpArgs_layout_witness :
  StreamPipe.resolvedMode
    (StreamPipe.mkOptions (Some "video") None None (Some "out.mkv")
       (Some ["--cookies"; "/path/to/cookies.txt"]) None) ≠ "audio" ∧
  StreamPipe.buildYtdlpArgs
    (StreamPipe.mkOptions (Some "video") None None (Some "out.mkv")
       (Some ["--cookies"; "/path/to/cookies.txt"]) None) "https://youtu.be/dQw4w9WgXcQ"
  = ["-f"; "best"; "--merge-output-format"; "mp4"; "--quiet"; "--no-warnings";
     "-o"; "out.mkv"; "https://youtu.be/dQw4w9WgXcQ"; "--cookies"; "/path/to/cookies.txt"].
Proof.
  split; [discriminate|].
  apply (proj2 (ytdlpArgs_layout
           (StreamPipe.mkOptions (Some "video") None None (Some "out.mkv")
              (Some ["--cookies"; "/path/to/cookies.txt"]) None)
           "https://youtu.be/dQw4w9WgXcQ")).
  discriminate.
Defined.

(** C4. The transcoder's arguments are, in this order: input from
    [pipe:0]; [-vn] in audio mode and [-c copy] in any other; the format
    flag with the resolved format; output to [pipe:1]; and then the
    caller's extra arguments. The third argument is [-vn] exactly in audio
    mode. *)
Theorem ffmpegArgs_layout o :
  (StreamPipe.resolvedMode o = "audio" →
     StreamPipe.buildFfmpegArgs o
       = ["-i"; "pipe:0"; "-vn"; "-f"; StreamPipe.resolvedFormat o; "pipe:1"]
         ++ default [] (StreamPipe.ffmpegArgs o)) ∧
  (StreamPipe.resolvedMode o ≠ "audio" →
     StreamPipe.buildFfmpegArgs o
       = ["-i"; "pipe:0"; "-c"; "copy"; "-f"; StreamPipe.resolvedFormat o; "pipe:1"]
         ++ default [] (StreamPipe.ffmpegArgs o)) ∧
  (StreamPipe.buildFfmpegArgs o !! 2%nat = Some "-vn" ↔ StreamPipe.resolvedMode o = "audio").
Proof.
  unfold StreamPipe.buildFfmpegArgs, push. split_and!.
  - intros ->. simpl. by destruct (StreamPipe.ffmpegArgs o) as [[|a l]|].
  - intros Hm. apply String.eqb_neq in Hm as ->. simpl.
    by destruct (StreamPipe.ffmpegArgs o) as [[|a l]|].
  - destruct (String.eqb_spec (StreamPipe.resolvedMode o) "audio") as [->|Hm]; simpl.
    + by destruct (StreamPipe.ffmpegArgs o) as [[|a l]|].
    + by destruct (StreamPipe.ffmpegArgs o) as [[|a l]|].
Qed.

Lemma ffmpegArgs_layout_witness :
  StreamPipe.resolvedMode
    (StreamPipe.mkOptions None (Some "flac") None None None (Some ["-ar"; "48000"])) = "audio" ∧
  StreamPipe.buildFfmpegArgs
    (StreamPipe.mkOptions None (Some "flac") None None None (Some ["-ar"; "48000"]))
  = ["-i"; "pipe:0"; "-vn"; "-f"; "flac"; "pipe:1"; "-ar"; "48000"].
Proof.
  split; [reflexivity|].
  apply (proj1 (ffmpegArgs_layout
           (StreamPipe.mkOptions None (Some "flac") None None None (Some ["-ar"; "48000"])))).
  reflexivity.
Defined.

(** The lists built are the ones the two processes are spawned with. *)
Lemma download_spawns_built_args w url o s r s' :
  StreamPipe.download w url o s = (Resolved r, s') →
  ∃ u ytDlp ffmpeg pre post,
    url = Some u ∧
    trace s' = trace s ++ pre ++ [ESpawn ytDlp (StreamPipe.buildYtdlpArgs o u);
                                  ESpawn ffmpeg (StreamPipe.buildFfmpegArgs o)] ++ post.
Proof.
  intros Hrun.
  destruct (download_cases w url o s)
    as [(delta & _ & _ & Hres)|(u & ytDlp & ffmpeg & pre & -> & _ & Htr & _ & _)].
  - by rewrite Hrun in Hres.
  - rewrite Hrun in Htr. simpl in Htr. by exists u, ytDlp, ffmpeg, pre, (EPipeProc :: procTrace (procEvents w)).
Qed.

(** *** What is returned *)

Lemma length_concat_sum (l : list Buffer) : length (concat l) = sum_list (length <$> l).
Proof.
  induction l as [|b l IH]; [done|].
  simpl. by rewrite length_app, IH.
Qed.

Lemma closeIsLast_collects_all evs code :
  closeIsLast evs = true → firstFfmpegClose evs = Some code →
  stdoutBeforeClose evs = stdoutChunks evs.
Proof.
  induction evs as [|ev evs IH]; [done|].
  destruct ev as [chunk|chunk|c|c]; simpl.
  - intros H1 H2. by rewrite IH.
  - done.
  - intros H _. by apply bool_decide_eq_true in H as ->.
  - done.
Qed.

(** C5, amended. When [download] resolves: if [output] is absent or the
    empty string, the downloader was told to write to ["-"] and the result
    is a buffer, possibly empty: the chunks the transcoder wrote before
    its ["close"], joined in arrival order. As the output has ended by
    then, these are all its chunks and the buffer is as long as everything
    the transcoder wrote. If [output] is a non-empty path, the downloader
    was told to write there and nothing is returned. *)
Theorem download_result_by_output w url o s r s' :
  StreamPipe.download w url o s = (Resolved r, s') →
  (truthy (StreamPipe.output o) = false →
     StreamPipe.outputPath o = "-" ∧
     r = Some (concat (stdoutBeforeClose (procEvents w))) ∧
     (closeIsLast (procEvents w) = true →
        r = Some (concat (stdoutChunks (procEvents w))) ∧
        ∃ buf, r = Some buf ∧ length buf = totalStdoutBytes (procEvents w))) ∧
  (∀ path, StreamPipe.output o = Some path → path ≠ "" →
     StreamPipe.outputPath o = path ∧ r = None).
Proof.
  intros Hrun.
  destruct (download_cases w url o s)
    as [(delta & _ & _ & Hres)|(u & ytDlp & ffmpeg & pre & -> & _ & _ & _ & Hres)].
  { by rewrite Hrun in Hres. }
  rewrite Hrun, runPipeline_pending in Hres by done. simpl in Hres.
  destruct (firstFfmpegClose (procEvents w)) as [code|] eqn:Hclose; [|done].
  assert (code = Some 0) as ->.
  { apply (closeOutcome_resolved (StreamPipe.isBufferMode o) code
             (if StreamPipe.isBufferMode o then stdoutBeforeClose (procEvents w) else [])).
    by rewrite <- Hres. }
  unfold closeOutcome in Hres. simpl in Hres. split.
  - intros Hout. unfold StreamPipe.outputPath, StreamPipe.isBufferMode in *.
    rewrite Hout in *. simpl in Hres. injection Hres as ->.
    split_and!; [done..|].
    intros Hlast. rewrite (closeIsLast_collects_all _ _ Hlast Hclose).
    split; [done|]. eexists. split; [done|]. apply length_concat_sum.
  - intros path Hout Hne. unfold StreamPipe.outputPath, StreamPipe.isBufferMode in *.
    rewrite Hout in *. simpl in *.
    apply String.eqb_neq in Hne. rewrite Hne in *. simpl in Hres.
    by injection Hres as ->.
Qed.

Lemma download_result_by_output_witness :
  closeIsLast [FfmpegStdout [Byte.x49; Byte.x44]; FfmpegStdout [Byte.x33]; YtdlpClose (Some 0);
               FfmpegClose (Some 0)] = true ∧
  truthy None = false ∧
  ∃ buf, Some [Byte.x49; Byte.x44; Byte.x33] = Some buf ∧ length buf = 3%nat.
Proof.
  split; [reflexivity|]. split; [reflexivity|].
  apply (proj2 (proj2 (proj2 (proj1 (download_result_by_output
    (installedLinux [FfmpegStdout [Byte.x49; Byte.x44]; FfmpegStdout [Byte.x33];
                     YtdlpClose (Some 0); FfmpegClose (Some 0)] (fun _ => ExecDone []))
    (Some "https://youtu.be/dQw4w9WgXcQ")
    (StreamPipe.mkOptions None None None None None None) freshState
    (Some [Byte.x49; Byte.x44; Byte.x33])
    (StreamPipe.download
       (installedLinux [FfmpegStdout [Byte.x49; Byte.x44]; FfmpegStdout [Byte.x33];
                        YtdlpClose (Some 0); FfmpegClose (Some 0)] (fun _ => ExecDone []))
       (Some "https://youtu.be/dQw4w9WgXcQ")
       (StreamPipe.mkOptions None None None None None None) freshState).2
    ltac:(vm_compute; reflexivity)) eq_refl)) eq_refl)).
Defined.

(** A transcoder that exits with status 0 having written nothing: the
    buffer returned is empty. *)
Lemma empty_output_resolves_with_empty_buffer :
  ¬ resultMatchesOutputOption
      (installedLinux [YtdlpClose (Some 0); FfmpegClose (Some 0)] (fun _ => ExecDone []))
      (Some "https://youtu.be/dQw4w9WgXcQ")
      (StreamPipe.mkOptions None None None None None None) freshState.
Proof.
  intros H.
  destruct (H (Some [])
              (StreamPipe.download
                 (installedLinux [YtdlpClose (Some 0); FfmpegClose (Some 0)]
                    (fun _ => ExecDone []))
                 (Some "https://youtu.be/dQw4w9WgXcQ")
                 (StreamPipe.mkOptions None None None None None None) freshState).2)
    as [Hbuf _].
  - vm_compute. reflexivity.
  - destruct (Hbuf eq_refl) as (_ & buf & [= <-] & Hne & _). done.
Qed.

(** An [output] that is the empty string counts as no output: the
    downloader writes to ["-"] and a buffer is returned. *)
Example empty_output_path_is_buffer_mode :
  StreamPipe.outputPath (StreamPipe.mkOptions None None None (Some "") None None) = "-" ∧
  (StreamPipe.download
     (installedLinux [FfmpegStdout [Byte.x49]; FfmpegClose (Some 0)] (fun _ => ExecDone []))
     (Some "https://youtu.be/dQw4w9WgXcQ")
     (StreamPipe.mkOptions None None None (Some "") None None) freshState).1
  = Resolved (Some [Byte.x49]).
Proof. split; vm_compute; reflexivity. Qed.

(** ** [download], temp-file variant *)

Lemma unlinked_app tr1 tr2 : unlinked (tr1 ++ tr2) = unlinked tr1 ++ unlinked tr2.
Proof.
  induction tr1 as [|e tr1 IH]; [done|].
  destruct e; simpl; rewrite ?IH; done.
Qed.

(** Whatever the downloader writes, the files that were there remain. *)
Lemma writeAll_keeps written : ∀ (m : gmap string File) p,
  is_Some (m !! p) → is_Some (TempFile.writeAll written m !! p).
Proof.
  induction written as [|[q d] written IH]; intros m p Hp; [done|].
  unfold TempFile.writeAll in *. simpl. apply IH.
  destruct (decide (q = p)) as [->|Hne].
  - rewrite lookup_insert_eq. by eexists.
  - by rewrite lookup_insert_ne.
Qed.

(** Once both tools are resolved, raw cookie data given together with an
    output path is written to a file in the temporary directory, and that
    file is still there when [download] settles, whichever way it
    settles: nothing is unlinked on the way. *)
Lemma raw_cookies_outlive_download w url o s ytDlp s1 ffmpeg s2 c :
  ensureBinary w "yt-dlp" s = (Resolved ytDlp, s1) →
  ensureBinary w "ffmpeg" s1 = (Resolved ffmpeg, s2) →
  TempFile.cookies o = Some c → c ≠ "" → existsIn (fs s2) c = false →
  truthy (TempFile.output o) = true →
  is_Some (files (fs (TempFile.download w url o s).2) !! TempFile.cookieTempFile w) ∧
  unlinked (trace (TempFile.download w url o s).2) = unlinked (trace s2).
Proof.
  intros Hy Hf Hc Hne Hex Hout. unfold TempFile.download. cbv zeta.
  rewrite (bind_resolved _ _ _ _ _ Hy), (bind_resolved _ _ _ _ _ Hf).
  assert (truthy (TempFile.cookies o) = true) as ->.
  { rewrite Hc. simpl. by apply negb_true_iff, String.eqb_neq. }
  rewrite Hc, Hout. cbn [negb default].
  set (args := if String.eqb _ "audio" then _ else _).
  set (tmp := TempFile.cookieTempFile w).
  set (file := match files (fs s2) !! tmp with
               | Some old => mkFile (fmode old) (String.list_byte_of_string c)
               | None => mkFile 438 (String.list_byte_of_string c)
               end).
  set (s3 := mkState (mkFs (<[tmp := file]> (files (fs s2))) (dirs (fs s2)))
                     (trace s2 ++ [EExistsSync c; EWriteFileSync tmp c])).
  erewrite (bind_resolved _ _ s2 (push args ["--cookies"; tmp]) s3).
  2:{ unfold existsSync, TempFile.writeFileSync, bind, emit, getFs, putFs, ret; simpl.
      rewrite Hex. simpl. subst s3. by rewrite <- app_assoc. }
  unfold TempFile.execFileAsync, bind, emit, getFs, putFs, ret, throw; simpl.
  destruct (ytdlpExec w _) as [err|written]; simpl.
  - rewrite lookup_insert_eq. split; [by eexists|].
    rewrite !unlinked_app. simpl. by rewrite !app_nil_r.
  - split.
    + apply writeAll_keeps. rewrite lookup_insert_eq. by eexists.
    + rewrite !unlinked_app. simpl. by rewrite !app_nil_r.
Qed.

(** C8 fails on the code. With raw cookie data and an output path,
    [download] writes the data to [/tmp/easy-dl-cookies-<now>.txt] and
    never deletes it: the file holds the cookies when the promise
    resolves, and equally when the downloader fails and the promise
    rejects. *)
Theorem materialised_cookies_are_left_behind :
  let ok := TempFile.download (installedLinux [] ytdlpWrites)
              "https://youtu.be/dQw4w9WgXcQ" rawCookieOptions freshState in
  let ko := TempFile.download (installedLinux [] ytdlpFails)
              "https://youtu.be/dQw4w9WgXcQ" rawCookieOptions freshState in
  TempFile.cookieTempFile (installedLinux [] ytdlpWrites)
    = "/tmp/easy-dl-cookies-1700000000000.txt" ∧
  ok.1 = Resolved None ∧
  EWriteFileSync "/tmp/easy-dl-cookies-1700000000000.txt" "SID=abc123; HSID=xyz" ∈ trace ok.2 ∧
  fdata <$> files (fs ok.2) !! "/tmp/easy-dl-cookies-1700000000000.txt"
    = Some (String.list_byte_of_string "SID=abc123; HSID=xyz") ∧
  unlinked (trace ok.2) = [] ∧
  ko.1 = Rejected (Error "Command failed: yt-dlp") ∧
  fdata <$> files (fs ko.2) !! "/tmp/easy-dl-cookies-1700000000000.txt"
    = Some (String.list_byte_of_string "SID=abc123; HSID=xyz") ∧
  unlinked (trace ko.2) = [].
Proof.
  intros ok ko. split_and!; try (vm_compute; reflexivity).
  apply list_elem_of_In. vm_compute. tauto.
Qed.

(** Without an output path the first match of [easy-dl-*] is read,
    returned and deleted, and the cookie file is itself such a match. *)
Example cookie_file_matches_the_output_glob :
  TempFile.globMatches (installedLinux [] ytdlpWrites) "/tmp/easy-dl-"
    "/tmp/easy-dl-cookies-1700000000000.txt" = true.
Proof. vm_compute. reflexivity. Qed.

(** * Beyond the specification's claims *)

(** ** Fetching and resolving *)

(** [downloadFile] on a 200 response: the promise resolves; the
    destination holds exactly the response body, whatever it held before;
    a new file gets mode [0o755] and an existing one keeps its mode; no
    other file is touched. *)
Theorem downloadFile_stores_body w url dest s body :
  http w url = Response 200 body →
  (downloadFile w url dest s).1 = Resolved tt ∧
  fdata <$> files (fs (downloadFile w url dest s).2) !! dest = Some body ∧
  fmode <$> files (fs (downloadFile w url dest s).2) !! dest
    = Some (default mode_0o755 (fmode <$> files (fs s) !! dest)) ∧
  (∀ p, p ≠ dest → files (fs (downloadFile w url dest s).2) !! p = files (fs s) !! p) ∧
  streamed (since s (downloadFile w url dest s).2) = [(dest, body)].
Proof.
  intros Hhttp. rewrite downloadFile_run, Hhttp. simpl.
  unfold pipeToFile, bind, emit, getFs, putFs; simpl. split_and!.
  - done.
  - rewrite lookup_alter_eq, lookup_insert_eq. by destruct (files (fs s) !! dest).
  - rewrite lookup_alter_eq, lookup_insert_eq. by destruct (files (fs s) !! dest).
  - intros p Hp. by rewrite lookup_alter_ne, lookup_insert_ne.
  - rewrite <- app_assoc. by rewrite since_extend.
Qed.

Lemma downloadFile_stores_body_witness :
  http (bareLinux 200 [Byte.x7f; Byte.x45]) "https://example.org/tool"
    = Response 200 [Byte.x7f; Byte.x45] ∧
  fdata <$> files (fs (downloadFile (bareLinux 200 [Byte.x7f; Byte.x45])
                         "https://example.org/tool" "/home/u/app/bin/ffmpeg" staleCache).2)
              !! "/home/u/app/bin/ffmpeg" = Some [Byte.x7f; Byte.x45].
Proof.
  split; [reflexivity|].
  apply (proj1 (proj2 (downloadFile_stores_body (bareLinux 200 [Byte.x7f; Byte.x45])
           "https://example.org/tool" "/home/u/app/bin/ffmpeg" staleCache
           [Byte.x7f; Byte.x45] eq_refl))).
Defined.

(** A name that is neither of the two tools, found neither on the system
    path nor in the cache, is refused with "<name> binary not found":
    nothing is fetched and the file system is left as it was. *)
Theorem ensureBinary_unknown_tool w name s :
  name ≠ "yt-dlp" → name ≠ "ffmpeg" →
  onPath w (exeName w name) = false →
  existsIn (fs s) (localPath w name) = false →
  (ensureBinary w name s).1 = Rejected (Error (name +:+ " binary not found")) ∧
  fs (ensureBinary w name s).2 = fs s ∧
  requests (since s (ensureBinary w name s).2) = [].
Proof.
  intros Hy Hf Hon Hex. rewrite ensureBinary_run. simpl. rewrite Hon, Hex.
  apply String.eqb_neq in Hy as ->. apply String.eqb_neq in Hf as ->. simpl.
  split_and!; [done..|]. by rewrite since_extend.
Qed.

Lemma ensureBinary_unknown_tool_witness :
  "ffprobe" ≠ "yt-dlp" ∧ "ffprobe" ≠ "ffmpeg" ∧
  (ensureBinary offlineLinux "ffprobe" freshState).1
    = Rejected (Error "ffprobe binary not found").
Proof.
  split; [discriminate|]. split; [discriminate|].
  apply (proj1 (ensureBinary_unknown_tool offlineLinux "ffprobe" freshState
                  ltac:(discriminate) ltac:(discriminate) eq_refl
                  ltac:(vm_compute; reflexivity))).
Defined.

Lemma downloadFile_complete w url dest s body :
  http w url = Response 200 body → (downloadFile w url dest s).1 = Resolved tt.
Proof. intros Hhttp. rewrite downloadFile_run, Hhttp. cbn [negb Z.eqb]. by rewrite pipeToFile_run. Qed.

(** What a fetch, ended well or badly or not at all, leaves at its
    destination. *)
Lemma fetch_leaves_file w url dest st :
  files (fs st) !! dest = None →
  files (fs ((downloadFile w url dest ;;; ret dest) st).2) !! dest
    = Some (mkFile mode_0o755 (pipedBytes (http w url))).
Proof.
  intros Hnone. rewrite bind_ret_state, downloadFile_run. unfold pipedBytes.
  destruct (http w url) as [code body|err|code received err|].
  - destruct (code =? 200); cbn [negb].
    + rewrite pipeToFile_run. simpl. by rewrite lookup_insert_eq, Hnone.
    + simpl. by rewrite lookup_insert_eq, Hnone.
  - simpl. by rewrite lookup_insert_eq, Hnone.
  - destruct (code =? 200); cbn [negb].
    + rewrite pipeToFile_run. simpl. by rewrite lookup_insert_eq, Hnone.
    + simpl. by rewrite lookup_insert_eq, Hnone.
  - simpl. by rewrite lookup_insert_eq, Hnone.
Qed.

(** Resolution of a supported tool that had to go to the network leaves a
    file of mode [0o755] in the cache, whatever became of the fetch: it
    holds what was piped of the body of a 200 response, and is empty
    otherwise. *)
Lemma ensureBinary_leaves_file w name s :
  name = "yt-dlp" ∨ name = "ffmpeg" →
  onPath w (exeName w name) = false →
  existsIn (fs s) (localPath w name) = false →
  files (fs (ensureBinary w name s).2) !! localPath w name
    = Some (mkFile mode_0o755 (pipedBytes (http w (binaryUrl w name)))).
Proof.
  intros Hname Hon Hex. rewrite ensureBinary_run. simpl. rewrite Hon, Hex.
  assert (String.eqb name "yt-dlp" = false → String.eqb name "ffmpeg" = true) as Hff.
  { destruct Hname as [-> | ->]; done. }
  unfold binaryUrl.
  destruct (String.eqb name "yt-dlp"); [|rewrite (Hff eq_refl)];
    apply fetch_leaves_file; simpl; by apply existsIn_false.
Qed.

Lemma ensureBinary_cached_no_request w name s :
  existsIn (fs s) (localPath w name) = true →
  requests (since s (ensureBinary w name s).2) = [].
Proof.
  intros Hex. rewrite ensureBinary_run. simpl. rewrite Hex.
  destruct (onPath w (exeName w name)); simpl; by rewrite since_extend.
Qed.

(** Whatever the first resolution of a supported tool did, one that
    follows it never goes to the network: a tool that was fetched, or
    whose fetch failed, is from then on answered from the cache. *)
Theorem ensureBinary_fetches_at_most_once w name s :
  name = "yt-dlp" ∨ name = "ffmpeg" →
  requests (since (ensureBinary w name s).2
              (ensureBinary w name (ensureBinary w name s).2).2) = [].
Proof.
  intros Hname.
  destruct (onPath w (exeName w name)) eqn:Hon.
  { generalize (ensureBinary w name s).2. intros s1.
    rewrite ensureBinary_run. simpl. rewrite Hon. simpl. by rewrite since_extend. }
  apply ensureBinary_cached_no_request.
  destruct (existsIn (fs s) (localPath w name)) eqn:Hex.
  - rewrite ensureBinary_run. simpl. by rewrite Hon, Hex.
  - pose proof (ensureBinary_leaves_file w name s Hname Hon Hex) as Hfile.
    unfold existsIn. by rewrite Hfile.
Qed.

(** A supported tool whose resolution was rejected has left a file of
    mode [0o755] at its cache path, and the next resolution returns that
    path: the failed fetch is from then on taken for the tool. The file
    is empty when the server answered with another status than 200 or
    the request failed before any response; when the body of a 200
    response broke off, it holds the part that arrived. *)
Theorem failed_fetch_is_taken_for_the_tool w name s e s1 :
  name = "yt-dlp" ∨ name = "ffmpeg" →
  ensureBinary w name s = (Rejected e, s1) →
  (∃ data,
     files (fs s1) !! localPath w name = Some (mkFile mode_0o755 data) ∧
     (∀ statusCode body, http w (binaryUrl w name) = Response statusCode body → data = []) ∧
     (∀ err, http w (binaryUrl w name) = TransportError err → data = []) ∧
     (∀ statusCode received err,
        http w (binaryUrl w name) = Interrupted statusCode received err →
        statusCode ≠ 200 → data = []) ∧
     (∀ received err,
        http w (binaryUrl w name) = Interrupted 200 received err → data = received)) ∧
  (ensureBinary w name s1).1 = Resolved (localPath w name) ∧
  fs (ensureBinary w name s1).2 = fs s1.
Proof.
  intros Hname Hrun.
  assert (onPath w (exeName w name) = false ∧ existsIn (fs s) (localPath w name) = false)
    as [Hon Hex].
  { rewrite ensureBinary_run in Hrun. simpl in Hrun.
    destruct (onPath w (exeName w name)); [done|].
    by destruct (existsIn (fs s) (localPath w name)). }
  pose proof (ensureBinary_leaves_file w name s Hname Hon Hex) as Hfile.
  assert (∀ body, http w (binaryUrl w name) ≠ Response 200 body) as Hnot200.
  { intros body Hhttp. rewrite ensureBinary_run in Hrun. simpl in Hrun.
    rewrite Hon, Hex in Hrun. unfold binaryUrl in Hhttp.
    assert (String.eqb name "yt-dlp" = false → String.eqb name "ffmpeg" = true) as Hff.
    { destruct Hname as [-> | ->]; done. }
    destruct (String.eqb name "yt-dlp"); [|rewrite (Hff eq_refl) in Hrun];
      unfold bind, ret in Hrun;
      match type of Hrun with context [downloadFile w ?url ?dest ?st] =>
        pose proof (downloadFile_complete w url dest st body Hhttp) as Hok;
        destruct (downloadFile w url dest st) as [[[]|e'|] s'] end;
      done. }
  rewrite Hrun in Hfile. simpl in Hfile. split.
  - eexists. split; [exact Hfile|]. unfold pipedBytes. split_and!.
    + intros st body Hhttp. rewrite Hhttp. destruct (st =? 200) eqn:Hst; [|done].
      apply Z.eqb_eq in Hst as ->. by destruct (Hnot200 body).
    + by intros err ->.
    + intros st received err -> Hst. by apply Z.eqb_neq in Hst as ->.
    + by intros received err ->.
  - rewrite ensureBinary_run. simpl. rewrite Hon.
    unfold existsIn. by rewrite Hfile.
Qed.

Lemma failed_fetch_is_taken_for_the_tool_witness :
  ("ffmpeg" = "yt-dlp" ∨ "ffmpeg" = "ffmpeg") ∧
  (∃ data,
     files (fs (ensureBinary (flakyLinux [Byte.x7f; Byte.x45] (Error "socket hang up"))
                  "ffmpeg" freshState).2)
       !! "/home/u/app/bin/ffmpeg" = Some (mkFile mode_0o755 data) ∧
     data = [Byte.x7f; Byte.x45]) ∧
  (ensureBinary (flakyLinux [Byte.x7f; Byte.x45] (Error "socket hang up")) "ffmpeg"
     (ensureBinary (flakyLinux [Byte.x7f; Byte.x45] (Error "socket hang up")) "ffmpeg"
        freshState).2).1
    = Resolved "/home/u/app/bin/ffmpeg".
Proof.
  split; [right; reflexivity|].
  pose proof (failed_fetch_is_taken_for_the_tool
                (flakyLinux [Byte.x7f; Byte.x45] (Error "socket hang up")) "ffmpeg"
                freshState (Error "socket hang up")
                (ensureBinary (flakyLinux [Byte.x7f; Byte.x45] (Error "socket hang up"))
                   "ffmpeg" freshState).2
                (or_intror eq_refl) ltac:(vm_compute; reflexivity))
    as ((data & H1 & _ & _ & _ & H2) & H3 & _).
  split; [|exact H3].
  exists data. split; [exact H1|].
  exact (H2 [Byte.x7f; Byte.x45] (Some (Error "socket hang up")) eq_refl).
Defined.

Lemma ensureBinary_fetches_at_most_once_witness :
  ("yt-dlp" = "yt-dlp" ∨ "yt-dlp" = "ffmpeg") ∧
  requests (since (ensureBinary (bareLinux 200 [Byte.x7f]) "yt-dlp" freshState).2
              (ensureBinary (bareLinux 200 [Byte.x7f]) "yt-dlp"
                 (ensureBinary (bareLinux 200 [Byte.x7f]) "yt-dlp" freshState).2).2) = [].
Proof.
  split; [left; reflexivity|].
  apply (ensureBinary_fetches_at_most_once (bareLinux 200 [Byte.x7f]) "yt-dlp" freshState).
  left; reflexivity.
Defined.

(** ** The pipeline *)

Lemma spawned_app tr1 tr2 : spawned (tr1 ++ tr2) = spawned tr1 ++ spawned tr2.
Proof.
  induction tr1 as [|e tr1 IH]; [done|].
  destruct e; simpl; rewrite ?IH; done.
Qed.

Lemma executed_app tr1 tr2 : executed (tr1 ++ tr2) = executed tr1 ++ executed tr2.
Proof.
  induction tr1 as [|e tr1 IH]; [done|].
  destruct e; simpl; rewrite ?IH; done.
Qed.

Lemma forwardedStderr_app tr1 tr2 :
  forwardedStderr (tr1 ++ tr2) = forwardedStderr tr1 ++ forwardedStderr tr2.
Proof.
  induction tr1 as [|e tr1 IH]; [done|].
  destruct e as [| | | | | | | | | | |[|l [|c [|x args]]]| | |]; simpl; rewrite ?IH; try done.
  by destruct (String.eqb l _).
Qed.

(** Resolution leaves only events of resolution in the trace, and runs
    one command: the locate command. *)
Lemma ensureBinary_events w name s :
  ∃ delta, trace (ensureBinary w name s).2 = trace s ++ delta ∧
           forallb resolutionEvent delta = true ∧
           executed delta = [(whichCmd w, [exeName w name])].
Proof.
  assert (∀ url dest st,
    ∃ delta, trace ((downloadFile w url dest ;;; ret dest) st).2 = trace st ++ delta
             ∧ forallb resolutionEvent delta = true ∧ executed delta = []) as Hfetch.
  { intros url dest st. rewrite bind_ret_state.
    destruct (downloadFile_trace w url dest st) as (piped & -> & [->|[data ->]]);
      by eexists. }
  rewrite ensureBinary_run; simpl.
  destruct (onPath w (exeName w name)); [by eexists|].
  destruct (existsIn (fs s) (localPath w name)); [by eexists|].
  destruct (String.eqb name "yt-dlp").
  { match goal with |- context [(_ ;;; _) ?st] =>
      destruct (Hfetch (ytdlpUrl w) (localPath w name) st) as (d & -> & Hd & Hx) end.
    simpl. eexists. split; [by rewrite <- !app_assoc|]. simpl. by rewrite Hd, Hx. }
  destruct (String.eqb name "ffmpeg"); [|by eexists].
  match goal with |- context [(_ ;;; _) ?st] =>
    destruct (Hfetch (ffmpegUrl w) (localPath w name) st) as (d & -> & Hd & Hx) end.
  simpl. eexists. split; [by rewrite <- !app_assoc|]. simpl. by rewrite Hd, Hx.
Qed.

Lemma resolutionEvents_quiet delta :
  forallb resolutionEvent delta = true →
  spawned delta = [] ∧ unlinked delta = [] ∧ consoleErrors delta = [] ∧
  forwardedStderr delta = [] ∧ globbed delta = [] ∧ readFiles delta = [] ∧
  writtenFiles delta = [].
Proof.
  induction delta as [|e delta IH]; [done|].
  simpl. intros [He Hd]%andb_true_iff. destruct e; try done; simpl; by apply IH.
Qed.

Lemma procTrace_quiet evs :
  spawned (procTrace evs) = [] ∧ forwardedStderr (procTrace evs) = stderrChunks evs.
Proof.
  induction evs as [|ev evs [IH1 IH2]]; [done|].
  unfold procTrace in *. destruct ev as [chunk|chunk|code|code]; simpl; try done.
  - by rewrite IH2.
  - by destruct (negb (bool_decide (code = Some 0))).
Qed.

(** The trace of a [download] whose tools both resolved. *)
Lemma download_since w u o s ytDlp s1 ffmpeg s2 :
  u ≠ "" →
  ensureBinary w "yt-dlp" s = (Resolved ytDlp, s1) →
  ensureBinary w "ffmpeg" s1 = (Resolved ffmpeg, s2) →
  ∃ pre, since s s2 = pre ∧ forallb resolutionEvent pre = true ∧
         since s (StreamPipe.download w (Some u) o s).2
           = pre ++ [ESpawn ytDlp (StreamPipe.buildYtdlpArgs o u);
                     ESpawn ffmpeg (StreamPipe.buildFfmpegArgs o);
                     EPipeProc] ++ procTrace (procEvents w).
Proof.
  intros Hu Hy Hf.
  destruct (ensureBinary_events w "yt-dlp" s) as (d1 & Ht1 & Hd1 & _).
  destruct (ensureBinary_events w "ffmpeg" s1) as (d2 & Ht2 & Hd2 & _).
  rewrite Hy in Ht1. rewrite Hf in Ht2. simpl in Ht1, Ht2.
  rewrite Ht1, <- app_assoc in Ht2.
  exists (d1 ++ d2). split_and!.
  - by apply since_app.
  - by rewrite forallb_app, Hd1, Hd2.
  - rewrite download_run, Hy, Hf by done. simpl.
    apply since_app. simpl. by rewrite Ht2, <- !app_assoc.
Qed.

(** [download] spawns nothing unless both tools have resolved. When they
    have, it spawns exactly two processes, the downloader and then the
    transcoder, under the paths resolution returned and with the argument
    lists built, and only after everything resolution did. *)
Theorem download_spawns_after_resolution w url o s :
  (∀ u ytDlp ffmpeg s1 s2,
     url = Some u → u ≠ "" →
     ensureBinary w "yt-dlp" s = (Resolved ytDlp, s1) →
     ensureBinary w "ffmpeg" s1 = (Resolved ffmpeg, s2) →
     spawned (since s (StreamPipe.download w url o s).2)
       = [(ytDlp, StreamPipe.buildYtdlpArgs o u); (ffmpeg, StreamPipe.buildFfmpegArgs o)] ∧
     ∃ after,
       since s (StreamPipe.download w url o s).2
         = since s s2 ++ ESpawn ytDlp (StreamPipe.buildYtdlpArgs o u)
                      :: ESpawn ffmpeg (StreamPipe.buildFfmpegArgs o) :: after) ∧
  (spawned (since s (StreamPipe.download w url o s).2) ≠ [] →
     ∃ ytDlp ffmpeg s1 s2,
       ensureBinary w "yt-dlp" s = (Resolved ytDlp, s1) ∧
       ensureBinary w "ffmpeg" s1 = (Resolved ffmpeg, s2)).
Proof.
  split.
  - intros u ytDlp ffmpeg s1 s2 -> Hu Hy Hf.
    destruct (download_since w u o s ytDlp s1 ffmpeg s2 Hu Hy Hf) as (pre & Hpre & Hq & ->).
    rewrite Hpre. split; [|by eexists].
    rewrite !spawned_app. simpl.
    rewrite (proj1 (resolutionEvents_quiet _ Hq)), (proj1 (procTrace_quiet _)). done.
  - intros Hsp.
    destruct url as [u|]; [|by rewrite (since_app _ _ [] ltac:(by rewrite app_nil_r)) in Hsp].
    destruct (decide (u = "")) as [->|Hu].
    { by rewrite (since_app _ _ [] ltac:(by rewrite app_nil_r)) in Hsp. }
    rewrite download_run in Hsp by done.
    destruct (ensureBinary_events w "yt-dlp" s) as (d1 & Ht1 & Hd1 & _).
    destruct (ensureBinary w "yt-dlp" s) as [[ytDlp|e|] s1] eqn:Hy; simpl in Ht1.
    2,3: simpl in Hsp;
      rewrite (since_app _ _ _ Ht1), (proj1 (resolutionEvents_quiet _ Hd1)) in Hsp; done.
    destruct (ensureBinary_events w "ffmpeg" s1) as (d2 & Ht2 & Hd2 & _).
    destruct (ensureBinary w "ffmpeg" s1) as [[ffmpeg|e|] s2] eqn:Hf; simpl in Ht2.
    { by exists ytDlp, ffmpeg, s1, s2. }
    all: simpl in Hsp; rewrite Ht1, <- app_assoc in Ht2;
      rewrite (since_app _ _ _ Ht2), spawned_app,
        (proj1 (resolutionEvents_quiet _ Hd1)), (proj1 (resolutionEvents_quiet _ Hd2)) in Hsp;
      done.
Qed.

Lemma download_spawns_after_resolution_witness :
  Some "https://youtu.be/dQw4w9WgXcQ" = Some "https://youtu.be/dQw4w9WgXcQ" ∧
  "https://youtu.be/dQw4w9WgXcQ" ≠ "" ∧
  spawned (since freshState
             (StreamPipe.download
                (installedLinux [FfmpegClose (Some 0)] (fun _ => ExecDone []))
                (Some "https://youtu.be/dQw4w9WgXcQ")
                (StreamPipe.mkOptions None None None None None None) freshState).2)
    = [("yt-dlp", ["-f"; "0"; "--quiet"; "--no-warnings"; "-o"; "-";
                   "https://youtu.be/dQw4w9WgXcQ"]);
       ("ffmpeg", ["-i"; "pipe:0"; "-vn"; "-f"; "mp3"; "pipe:1"])].
Proof.
  split; [reflexivity|]. split; [discriminate|].
  apply (proj1 (proj1 (download_spawns_after_resolution
           (installedLinux [FfmpegClose (Some 0)] (fun _ => ExecDone []))
           (Some "https://youtu.be/dQw4w9WgXcQ")
           (StreamPipe.mkOptions None None None None None None) freshState)
         "https://youtu.be/dQw4w9WgXcQ" "yt-dlp" "ffmpeg"
         (mkState emptyFs [EExecFile "which" ["yt-dlp"]])
         (mkState emptyFs [EExecFile "which" ["yt-dlp"]; EExecFile "which" ["ffmpeg"]])
         eq_refl ltac:(discriminate) eq_refl eq_refl)).
Defined.

(** A tool that cannot be resolved ends [download] with the resolver's
    own error, in the state the resolver left. The downloader is resolved
    first: when that fails the transcoder is not even looked for, the
    only command run being the downloader's locate command. When the
    transcoder fails to resolve nothing has been spawned. *)
Theorem download_propagates_resolution_failure w u o s :
  u ≠ "" →
  (∀ e s1, ensureBinary w "yt-dlp" s = (Rejected e, s1) →
     StreamPipe.download w (Some u) o s = (Rejected e, s1) ∧
     executed (since s s1) = [(whichCmd w, [exeName w "yt-dlp"])]) ∧
  (∀ ytDlp s1 e s2,
     ensureBinary w "yt-dlp" s = (Resolved ytDlp, s1) →
     ensureBinary w "ffmpeg" s1 = (Rejected e, s2) →
     StreamPipe.download w (Some u) o s = (Rejected e, s2) ∧
     spawned (since s s2) = []).
Proof.
  intros Hu. split.
  - intros e s1 Hy. rewrite download_run, Hy by done. split; [done|].
    destruct (ensureBinary_events w "yt-dlp" s) as (d1 & Ht1 & _ & Hx).
    rewrite Hy in Ht1. simpl in Ht1. by rewrite (since_app _ _ _ Ht1).
  - intros ytDlp s1 e s2 Hy Hf. rewrite download_run, Hy, Hf by done. split; [done|].
    destruct (ensureBinary_events w "yt-dlp" s) as (d1 & Ht1 & Hd1 & _).
    destruct (ensureBinary_events w "ffmpeg" s1) as (d2 & Ht2 & Hd2 & _).
    rewrite Hy in Ht1. rewrite Hf in Ht2. simpl in Ht1, Ht2.
    rewrite Ht1, <- app_assoc in Ht2.
    rewrite (since_app _ _ _ Ht2), spawned_app.
    by rewrite (proj1 (resolutionEvents_quiet _ Hd1)), (proj1 (resolutionEvents_quiet _ Hd2)).
Qed.

Lemma download_propagates_resolution_failure_witness :
  "https://youtu.be/dQw4w9WgXcQ" ≠ "" ∧
  StreamPipe.download (bareLinux 404 [Byte.x3c]) (Some "https://youtu.be/dQw4w9WgXcQ")
    (StreamPipe.mkOptions None None None None None None) freshState
  = (Rejected (Error "Download failed: 404"),
     (ensureBinary (bareLinux 404 [Byte.x3c]) "yt-dlp" freshState).2).
Proof.
  split; [discriminate|].
  apply (proj1 (proj1 (download_propagates_resolution_failure (bareLinux 404 [Byte.x3c])
           "https://youtu.be/dQw4w9WgXcQ"
           (StreamPipe.mkOptions None None None None None None) freshState
           ltac:(discriminate))
         (Error "Download failed: 404")
         (ensureBinary (bareLinux 404 [Byte.x3c]) "yt-dlp" freshState).2
         ltac:(vm_compute; reflexivity))).
Defined.

Lemma firstFfmpegClose_app evs more code :
  firstFfmpegClose evs = Some code →
  firstFfmpegClose (evs ++ more) = Some code ∧
  stdoutBeforeClose (evs ++ more) = stdoutBeforeClose evs.
Proof.
  induction evs as [|ev evs IH]; [done|].
  destruct ev as [chunk|chunk|c|c]; simpl; intros H; try done.
  - destruct (IH H) as [-> ->]. done.
  - by apply IH.
  - by apply IH.
Qed.

(** The promise is settled once: whatever the processes deliver after the
    transcoder's first ["close"], more output, another ["close"] with
    another status, leaves the outcome as that ["close"] made it. *)
Theorem events_after_close_are_ignored w url o s evs more code :
  firstFfmpegClose evs = Some code →
  (StreamPipe.download (withEvents w (evs ++ more)) url o s).1
    = (StreamPipe.download (withEvents w evs) url o s).1.
Proof.
  intros Hclose.
  destruct url as [u|]; [|done].
  destruct (decide (u = "")) as [->|Hu]; [done|].
  rewrite !download_run by done. rewrite !ensureBinary_withEvents.
  destruct (ensureBinary w "yt-dlp" s) as [[ytDlp|e|] s1]; [|done..].
  rewrite !ensureBinary_withEvents.
  destruct (ensureBinary w "ffmpeg" s1) as [[ffmpeg|e|] s2]; [|done..].
  simpl. rewrite !runPipeline_pending by done.
  destruct (firstFfmpegClose_app evs more code Hclose) as [-> ->].
  by rewrite Hclose.
Qed.

Lemma events_after_close_are_ignored_witness :
  firstFfmpegClose [FfmpegStdout [Byte.x49]; FfmpegClose (Some 0)] = Some (Some 0) ∧
  (StreamPipe.download
     (withEvents (installedLinux [] (fun _ => ExecDone []))
        ([FfmpegStdout [Byte.x49]; FfmpegClose (Some 0)]
         ++ [FfmpegStdout [Byte.x44]; FfmpegClose (Some 1)]))
     (Some "https://youtu.be/dQw4w9WgXcQ")
     (StreamPipe.mkOptions None None None None None None) freshState).1
  = Resolved (Some [Byte.x49]).
Proof.
  split; [reflexivity|].
  rewrite (events_after_close_are_ignored (installedLinux [] (fun _ => ExecDone []))
             (Some "https://youtu.be/dQw4w9WgXcQ")
             (StreamPipe.mkOptions None None None None None None) freshState
             [FfmpegStdout [Byte.x49]; FfmpegClose (Some 0)]
             [FfmpegStdout [Byte.x44]; FfmpegClose (Some 1)] (Some 0) eq_refl).
  vm_compute. reflexivity.
Defined.

(** There is no timeout. A resolution that never settles, its request
    unanswered, leaves [download] pending in the state resolution
    reached; and once both tools have resolved, [download] stays pending
    exactly when the transcoder never delivers a ["close"], whatever the
    downloader does meanwhile. *)
Theorem download_pending_iff w u o s :
  u ≠ "" →
  (∀ s1, ensureBinary w "yt-dlp" s = (Pending, s1) →
     StreamPipe.download w (Some u) o s = (Pending, s1)) ∧
  (∀ ytDlp s1 s2,
     ensureBinary w "yt-dlp" s = (Resolved ytDlp, s1) →
     ensureBinary w "ffmpeg" s1 = (Pending, s2) →
     StreamPipe.download w (Some u) o s = (Pending, s2)) ∧
  (∀ ytDlp s1 ffmpeg s2,
     ensureBinary w "yt-dlp" s = (Resolved ytDlp, s1) →
     ensureBinary w "ffmpeg" s1 = (Resolved ffmpeg, s2) →
     ((StreamPipe.download w (Some u) o s).1 = Pending ↔
        firstFfmpegClose (procEvents w) = None)).
Proof.
  intros Hu. split_and!.
  - intros s1 Hy. by rewrite download_run, Hy.
  - intros ytDlp s1 s2 Hy Hf. by rewrite download_run, Hy, Hf.
  - intros ytDlp s1 ffmpeg s2 Hy Hf.
    rewrite download_run, Hy, Hf by done. simpl.
    rewrite runPipeline_pending by done. split.
    + destruct (firstFfmpegClose (procEvents w)) as [code|]; [|done].
      unfold closeOutcome. by destruct (negb _), (StreamPipe.isBufferMode o).
    + by intros ->.
Qed.

Lemma download_pending_iff_witness :
  "https://youtu.be/dQw4w9WgXcQ" ≠ "" ∧
  StreamPipe.download silentLinux (Some "https://youtu.be/dQw4w9WgXcQ")
    (StreamPipe.mkOptions None None None None None None) freshState
  = (Pending, (ensureBinary silentLinux "yt-dlp" freshState).2).
Proof.
  split; [discriminate|].
  apply (proj1 (download_pending_iff silentLinux "https://youtu.be/dQw4w9WgXcQ"
                  (StreamPipe.mkOptions None None None None None None) freshState
                  ltac:(discriminate))
               (ensureBinary silentLinux "yt-dlp" freshState).2).
  vm_compute. reflexivity.
Defined.

Lemma runPipeline_ffmpegEvents bm evs : ∀ p,
  runPipeline bm (ffmpegEvents evs) p = runPipeline bm evs p.
Proof.
  induction evs as [|ev evs IH]; intros p; [done|].
  unfold ffmpegEvents in *. destruct ev; simpl; rewrite ?runPipeline_cons; by rewrite IH.
Qed.

(** How the promise settles depends on the transcoder's events alone:
    with everything the downloader delivered taken away, its output on
    standard error and its exit, the outcome is the same. *)
Theorem outcome_depends_on_transcoder_only w url o s :
  (StreamPipe.download (withEvents w (ffmpegEvents (procEvents w))) url o s).1
    = (StreamPipe.download w url o s).1.
Proof.
  destruct url as [u|]; [|done].
  destruct (decide (u = "")) as [->|Hu]; [done|].
  rewrite !download_run by done. rewrite !ensureBinary_withEvents.
  destruct (ensureBinary w "yt-dlp" s) as [[ytDlp|e|] s1]; [|done..].
  rewrite !ensureBinary_withEvents.
  destruct (ensureBinary w "ffmpeg" s1) as [[ffmpeg|e|] s2]; [|done..].
  simpl. by rewrite runPipeline_ffmpegEvents.
Qed.

(** Once both tools have resolved, every chunk the downloader writes to
    its standard error reaches the console, in arrival order, those that
    arrive after the promise has settled included. *)
Theorem stderr_is_forwarded w u o s ytDlp s1 ffmpeg s2 :
  u ≠ "" →
  ensureBinary w "yt-dlp" s = (Resolved ytDlp, s1) →
  ensureBinary w "ffmpeg" s1 = (Resolved ffmpeg, s2) →
  forwardedStderr (since s (StreamPipe.download w (Some u) o s).2)
    = stderrChunks (procEvents w).
Proof.
  intros Hu Hy Hf.
  destruct (download_since w u o s ytDlp s1 ffmpeg s2 Hu Hy Hf) as (pre & _ & Hq & ->).
  rewrite !forwardedStderr_app. simpl.
  destruct (resolutionEvents_quiet _ Hq) as (_ & _ & _ & -> & _).
  by rewrite (proj2 (procTrace_quiet _)).
Qed.

Lemma stderr_is_forwarded_witness :
  "https://youtu.be/dQw4w9WgXcQ" ≠ "" ∧
  forwardedStderr
    (since freshState
       (StreamPipe.download
          (installedLinux [YtdlpStderr "WARNING: a"; FfmpegClose (Some 0); YtdlpStderr "ERROR: b"]
             (fun _ => ExecDone []))
          (Some "https://youtu.be/dQw4w9WgXcQ")
          (StreamPipe.mkOptions None None None None None None) freshState).2)
    = ["WARNING: a"; "ERROR: b"].
Proof.
  split; [discriminate|].
  apply (stderr_is_forwarded
           (installedLinux [YtdlpStderr "WARNING: a"; FfmpegClose (Some 0); YtdlpStderr "ERROR: b"]
              (fun _ => ExecDone []))
           "https://youtu.be/dQw4w9WgXcQ"
           (StreamPipe.mkOptions None None None None None None) freshState
           "yt-dlp" (mkState emptyFs [EExecFile "which" ["yt-dlp"]])
           "ffmpeg" (mkState emptyFs [EExecFile "which" ["yt-dlp"]; EExecFile "which" ["ffmpeg"]])
           ltac:(discriminate) eq_refl eq_refl).
Defined.

(** ** The temp-file variant *)

Lemma writtenFiles_app tr1 tr2 :
  writtenFiles (tr1 ++ tr2) = writtenFiles tr1 ++ writtenFiles tr2.
Proof.
  induction tr1 as [|e tr1 IH]; [done|].
  destruct e; simpl; rewrite ?IH; done.
Qed.

Lemma readFiles_app tr1 tr2 : readFiles (tr1 ++ tr2) = readFiles tr1 ++ readFiles tr2.
Proof.
  induction tr1 as [|e tr1 IH]; [done|].
  destruct e; simpl; rewrite ?IH; done.
Qed.

Lemma globbed_app tr1 tr2 : globbed (tr1 ++ tr2) = globbed tr1 ++ globbed tr2.
Proof.
  induction tr1 as [|e tr1 IH]; [done|].
  destruct e; simpl; rewrite ?IH; done.
Qed.

Lemma elem_of_candidates w prefix (f : Fs) p :
  p ∈ candidates w prefix f ↔
  TempFile.globMatches w prefix p = true ∧ (is_Some (files f !! p) ∨ p ∈ dirs f).
Proof.
  unfold candidates. rewrite list_elem_of_filter, elem_of_app, list_elem_of_fmap,
    elem_of_elements. split.
  - intros (Hg & [([q x] & -> & Hin)|Hd]); [|by auto].
    apply elem_of_map_to_list in Hin. eauto.
  - intros (Hg & [[x Hx]|Hd]); [|by auto]. split; [done|]. left.
    exists (p, x). split; [done|]. by apply elem_of_map_to_list.
Qed.

(** What fetching the result does, by what the search answers. *)
Lemma collectResult_run w s :
  collectResult w s =
    let s1 := mkState (fs s) (trace s ++ [EGlobSync (resultPrefix w +:+ "*")]) in
    match globResult w (resultPrefix w) (fs s) with
    | [] => (Rejected (Error "No output file produced"), s1)
    | filePath :: _ =>
        match files (fs s) !! filePath with
        | Some file =>
            (Resolved (Some (fdata file)),
             mkState (mkFs (delete filePath (files (fs s))) (dirs (fs s)))
               (trace s ++ [EGlobSync (resultPrefix w +:+ "*"); EReadFileSync filePath;
                            EUnlinkSync filePath]))
        | None =>
            (Rejected (readError (fs s) filePath),
             mkState (fs s) (trace s ++ [EGlobSync (resultPrefix w +:+ "*");
                                         EReadFileSync filePath]))
        end
    end.
Proof.
  unfold collectResult, TempFile.globSync, TempFile.readFileSync, TempFile.unlinkSync,
    globResult, candidates, readError, bind, emit, getFs, putFs, ret, throw; simpl.
  destruct (globOrder w _) as [|filePath rest]; [done|]. simpl.
  destruct (files (fs s) !! filePath) as [file|]; simpl; [by rewrite <- !app_assoc|].
  destruct (bool_decide _); simpl; by rewrite <- !app_assoc.
Qed.

(** The temp-file variant's [download] once both tools have resolved. *)
Lemma legacy_download_run w url o s ytDlp s1 ffmpeg s2 :
  ensureBinary w "yt-dlp" s = (Resolved ytDlp, s1) →
  ensureBinary w "ffmpeg" s1 = (Resolved ffmpeg, s2) →
  TempFile.download w url o s =
    let s3 := afterCookies w o s2 in
    let args := legacyArgs w o (fs s2) ffmpeg url in
    match ytdlpExec w args with
    | ExecFailed err => (Rejected err, mkState (fs s3) (trace s3 ++ [EExecFile ytDlp args]))
    | ExecDone written =>
        let s4 := mkState (mkFs (filesAfterExec w o s2 written) (dirs (fs s3)))
                          (trace s3 ++ [EExecFile ytDlp args]) in
        if negb (truthy (TempFile.output o)) then collectResult w s4
        else (Resolved None, s4)
    end.
Proof.
  intros Hy Hf. unfold TempFile.download. cbv zeta.
  rewrite (bind_resolved _ _ _ _ _ Hy), (bind_resolved _ _ _ _ _ Hf).
  fold (legacyMode o). fold (legacyFormat o). fold (legacyQuality o).
  set (margs := if String.eqb (legacyMode o) "audio" then _ else _).
  assert (margs = legacyModeArgs o) as ->.
  { subst margs. unfold legacyModeArgs. by destruct (String.eqb _ _). }
  erewrite (bind_resolved _ _ s2 (legacyModeArgs o ++ legacyCookieArgs w o (fs s2))
              (afterCookies w o s2)).
  2:{ unfold legacyCookieArgs, afterCookies.
      destruct (truthy (TempFile.cookies o)); [|by rewrite app_nil_r].
      unfold existsSync, TempFile.writeFileSync, bind, emit, getFs, putFs, ret, push; simpl.
      destruct (existsIn (fs s2) _); simpl; [done|]. by rewrite <- app_assoc. }
  unfold push. rewrite <- app_assoc. fold (legacyTailArgs w o ffmpeg url).
  fold (legacyArgs w o (fs s2) ffmpeg url). fold (collectResult w).
  unfold TempFile.execFileAsync, filesAfterExec.
  unfold bind at 1. unfold bind at 1. unfold emit at 1. simpl.
  destruct (ytdlpExec w _) as [err|written]; [done|].
  unfold bind, getFs, putFs, ret; simpl.
  by destruct (negb (truthy (TempFile.output o))).
Qed.

(** What the temp-file variant adds to the trace, from resolution on. *)
Lemma legacy_since w url o s ytDlp s1 ffmpeg s2 :
  ensureBinary w "yt-dlp" s = (Resolved ytDlp, s1) →
  ensureBinary w "ffmpeg" s1 = (Resolved ffmpeg, s2) →
  ∃ pre cookieEvents rest,
    since s (TempFile.download w url o s).2
      = pre ++ cookieEvents ++ EExecFile ytDlp (legacyArgs w o (fs s2) ffmpeg url) :: rest ∧
    forallb resolutionEvent pre = true ∧
    executed pre = [(whichCmd w, [exeName w "yt-dlp"]); (whichCmd w, [exeName w "ffmpeg"])] ∧
    trace (afterCookies w o s2) = trace s2 ++ cookieEvents ∧
    executed rest = [] ∧ writtenFiles rest = [] ∧
    (truthy (TempFile.output o) = true → rest = []) ∧
    (isResolved (TempFile.download w url o s).1 = false →
       unlinked rest = [] ∧ fs (TempFile.download w url o s).2 =
         match ytdlpExec w (legacyArgs w o (fs s2) ffmpeg url) with
         | ExecFailed _ => fs (afterCookies w o s2)
         | ExecDone written =>
             mkFs (filesAfterExec w o s2 written) (dirs (fs (afterCookies w o s2)))
         end) ∧
    (globbed cookieEvents = [] ∧ readFiles cookieEvents = [] ∧ unlinked cookieEvents = []) ∧
    (∀ err, ytdlpExec w (legacyArgs w o (fs s2) ffmpeg url) = ExecFailed err → rest = []).
Proof.
  intros Hy Hf.
  destruct (ensureBinary_events w "yt-dlp" s) as (d1 & Ht1 & Hd1 & Hx1).
  destruct (ensureBinary_events w "ffmpeg" s1) as (d2 & Ht2 & Hd2 & Hx2).
  rewrite Hy in Ht1. rewrite Hf in Ht2. simpl in Ht1, Ht2.
  rewrite Ht1, <- app_assoc in Ht2.
  assert (∃ cookieEvents, trace (afterCookies w o s2) = trace s2 ++ cookieEvents ∧
            globbed cookieEvents = [] ∧ readFiles cookieEvents = [] ∧
            unlinked cookieEvents = [])
    as (cookieEvents & Hc & Hcg & Hcr & Hcu).
  { unfold afterCookies. destruct (truthy _); [|exists []; by rewrite app_nil_r].
    simpl. destruct (existsIn _ _); by eexists. }
  rewrite (legacy_download_run w url o s ytDlp s1 ffmpeg s2 Hy Hf). cbv zeta.
  assert (Hshape : ∀ st rest,
    trace st = (trace (afterCookies w o s2)
                ++ [EExecFile ytDlp (legacyArgs w o (fs s2) ffmpeg url)]) ++ rest →
    since s st = (d1 ++ d2) ++ cookieEvents
                 ++ EExecFile ytDlp (legacyArgs w o (fs s2) ffmpeg url) :: rest).
  { intros st rest Hst. apply since_app. rewrite Hst, Hc, Ht2. by rewrite <- !app_assoc. }
  exists (d1 ++ d2), cookieEvents.
  destruct (ytdlpExec w _) as [err|written].
  { exists []. split_and!; try done.
    - apply Hshape. simpl. by rewrite app_nil_r.
    - by rewrite forallb_app, Hd1, Hd2.
    - by rewrite executed_app, Hx1, Hx2. }
  destruct (truthy (TempFile.output o)); simpl.
  { exists []. split_and!; try done.
    - apply Hshape. simpl. by rewrite app_nil_r.
    - by rewrite forallb_app, Hd1, Hd2.
    - by rewrite executed_app, Hx1, Hx2. }
  rewrite collectResult_run. cbv zeta. simpl.
  destruct (globResult _ _ _) as [|filePath more].
  { eexists. split_and!; [apply Hshape; reflexivity|..]; try done.
    - by rewrite forallb_app, Hd1, Hd2.
    - by rewrite executed_app, Hx1, Hx2. }
  destruct (filesAfterExec w o s2 written !! filePath) as [file|].
  - eexists. split_and!; [apply Hshape; reflexivity|..]; try done.
    + by rewrite forallb_app, Hd1, Hd2.
    + by rewrite executed_app, Hx1, Hx2.
  - eexists. split_and!; [apply Hshape; reflexivity|..]; try done.
    + by rewrite forallb_app, Hd1, Hd2.
    + by rewrite executed_app, Hx1, Hx2.
Qed.

(** Between them, resolution and the temp-file variant's [download] run
    three commands: the two locate commands and then the downloader, once.
    The downloader gets the mode arguments, then the cookie arguments,
    then the fixed tail ending in the output target and the URL. Without
    cookies there are no cookie arguments; cookies naming an existing file
    are passed as that path and nothing is written; any other cookie
    string is written to the temporary cookie file, whose path is passed. *)
Theorem legacy_download_runs_ytdlp_once w url o s ytDlp s1 ffmpeg s2 :
  ensureBinary w "yt-dlp" s = (Resolved ytDlp, s1) →
  ensureBinary w "ffmpeg" s1 = (Resolved ffmpeg, s2) →
  (truthy (TempFile.cookies o) = false →
     executed (since s (TempFile.download w url o s).2)
       = [(whichCmd w, [exeName w "yt-dlp"]); (whichCmd w, [exeName w "ffmpeg"]);
          (ytDlp, legacyModeArgs o ++ legacyTailArgs w o ffmpeg url)] ∧
     writtenFiles (since s (TempFile.download w url o s).2) = []) ∧
  (∀ c, TempFile.cookies o = Some c → c ≠ "" → existsIn (fs s2) c = true →
     executed (since s (TempFile.download w url o s).2)
       = [(whichCmd w, [exeName w "yt-dlp"]); (whichCmd w, [exeName w "ffmpeg"]);
          (ytDlp, legacyModeArgs o ++ ["--cookies"; c] ++ legacyTailArgs w o ffmpeg url)] ∧
     writtenFiles (since s (TempFile.download w url o s).2) = []) ∧
  (∀ c, TempFile.cookies o = Some c → c ≠ "" → existsIn (fs s2) c = false →
     executed (since s (TempFile.download w url o s).2)
       = [(whichCmd w, [exeName w "yt-dlp"]); (whichCmd w, [exeName w "ffmpeg"]);
          (ytDlp, legacyModeArgs o ++ ["--cookies"; TempFile.cookieTempFile w]
                  ++ legacyTailArgs w o ffmpeg url)] ∧
     writtenFiles (since s (TempFile.download w url o s).2)
       = [(TempFile.cookieTempFile w, c)]).
Proof.
  intros Hy Hf.
  destruct (legacy_since w url o s ytDlp s1 ffmpeg s2 Hy Hf)
    as (pre & ce & rest & -> & Hq & Hx & Hc & Hxr & Hwr & _).
  destruct (resolutionEvents_quiet _ Hq) as (_ & _ & _ & _ & _ & _ & Hwp).
  rewrite !executed_app, !writtenFiles_app, Hx, Hwp. simpl. rewrite Hxr, Hwr.
  unfold legacyArgs, legacyCookieArgs. unfold afterCookies in Hc.
  split_and!.
  - intros Hno. rewrite Hno in *.
    assert (ce = []) as ->; [|done].
    apply (app_inv_head (trace s2)). by rewrite app_nil_r.
  - intros c Hco Hne Hex. rewrite Hco in *. simpl in *.
    apply String.eqb_neq in Hne. rewrite Hne in *. simpl in *. rewrite Hex in *.
    simpl in Hc. apply app_inv_head in Hc as <-. done.
  - intros c Hco Hne Hex. rewrite Hco in *. simpl in *.
    apply String.eqb_neq in Hne. rewrite Hne in *. simpl in *. rewrite Hex in *.
    simpl in Hc. apply app_inv_head in Hc as <-. done.
Qed.

Lemma legacy_download_runs_ytdlp_once_witness :
  TempFile.cookies rawCookieOptions = Some "SID=abc123; HSID=xyz" ∧
  "SID=abc123; HSID=xyz" ≠ "" ∧
  executed (since freshState
              (TempFile.download (installedLinux [] ytdlpWrites)
                 "https://youtu.be/dQw4w9WgXcQ" rawCookieOptions freshState).2)
    = [("which", ["yt-dlp"]); ("which", ["ffmpeg"]);
       ("yt-dlp", ["-x"; "--audio-format"; "mp3"; "--audio-quality"; "0";
                   "--cookies"; "/tmp/easy-dl-cookies-1700000000000.txt";
                   "--quiet"; "--no-warnings"; "--ffmpeg-location"; "ffmpeg";
                   "-o"; "rickroll.mp3"; "https://youtu.be/dQw4w9WgXcQ"])].
Proof.
  split; [reflexivity|]. split; [discriminate|].
  apply (proj1 (proj2 (proj2 (legacy_download_runs_ytdlp_once
           (installedLinux [] ytdlpWrites) "https://youtu.be/dQw4w9WgXcQ" rawCookieOptions
           freshState "yt-dlp" (mkState emptyFs [EExecFile "which" ["yt-dlp"]])
           "ffmpeg" (mkState emptyFs [EExecFile "which" ["yt-dlp"]; EExecFile "which" ["ffmpeg"]])
           eq_refl eq_refl)) "SID=abc123; HSID=xyz" eq_refl ltac:(discriminate)
           ltac:(vm_compute; reflexivity))).
Defined.

Lemma legacy_trace_since w s ytDlp s1 ffmpeg s2 :
  ensureBinary w "yt-dlp" s = (Resolved ytDlp, s1) →
  ensureBinary w "ffmpeg" s1 = (Resolved ffmpeg, s2) →
  ∃ pre, trace s2 = trace s ++ pre ∧ forallb resolutionEvent pre = true.
Proof.
  intros Hy Hf.
  destruct (ensureBinary_events w "yt-dlp" s) as (d1 & Ht1 & Hd1 & _).
  destruct (ensureBinary_events w "ffmpeg" s1) as (d2 & Ht2 & Hd2 & _).
  rewrite Hy in Ht1. rewrite Hf in Ht2. simpl in Ht1, Ht2.
  exists (d1 ++ d2). split; [by rewrite Ht2, Ht1, <- app_assoc|].
  by rewrite forallb_app, Hd1, Hd2.
Qed.



(** What the temp-file variant does, without an output path, once the
    downloader has exited with status 0. *)
Lemma legacy_collect w url o s ytDlp s1 ffmpeg s2 written :
  ensureBinary w "yt-dlp" s = (Resolved ytDlp, s1) →
  ensureBinary w "ffmpeg" s1 = (Resolved ffmpeg, s2) →
  truthy (TempFile.output o) = false →
  ytdlpExec w (legacyArgs w o (fs s2) ffmpeg url) = ExecDone written →
  match globResult w (resultPrefix w) (fsAfterExec w o s2 written) with
  | [] =>
      (TempFile.download w url o s).1 = Rejected (Error "No output file produced") ∧
      fs (TempFile.download w url o s).2 = fsAfterExec w o s2 written ∧
      readFiles (since s (TempFile.download w url o s).2) = [] ∧
      unlinked (since s (TempFile.download w url o s).2) = []
  | path :: more =>
      match filesAfterExec w o s2 written !! path with
      | Some file =>
          (TempFile.download w url o s).1 = Resolved (Some (fdata file)) ∧
          fs (TempFile.download w url o s).2
            = mkFs (delete path (filesAfterExec w o s2 written))
                   (dirs (fsAfterExec w o s2 written)) ∧
          readFiles (since s (TempFile.download w url o s).2) = [path] ∧
          unlinked (since s (TempFile.download w url o s).2) = [path]
      | None =>
          (TempFile.download w url o s).1
            = Rejected (readError (fsAfterExec w o s2 written) path) ∧
          fs (TempFile.download w url o s).2 = fsAfterExec w o s2 written ∧
          readFiles (since s (TempFile.download w url o s).2) = [path] ∧
          unlinked (since s (TempFile.download w url o s).2) = []
      end
  end.
Proof.
  intros Hy Hf Hout Hexec.
  destruct (legacy_trace_since w s ytDlp s1 ffmpeg s2 Hy Hf) as (pre & Hpre & Hq).
  destruct (resolutionEvents_quiet _ Hq) as (_ & Hpu & _ & _ & _ & Hpr & _).
  assert (∃ ce, trace (afterCookies w o s2) = trace s2 ++ ce ∧
                readFiles ce = [] ∧ unlinked ce = []) as (ce & Hc & Hcr & Hcu).
  { unfold afterCookies.
    destruct (truthy (TempFile.cookies o)); [|exists []; by rewrite app_nil_r].
    simpl. destruct (existsIn _ _); by eexists. }
  rewrite (legacy_download_run w url o s ytDlp s1 ffmpeg s2 Hy Hf). cbv zeta.
  rewrite Hexec, Hout. cbn [negb]. rewrite collectResult_run. cbv zeta.
  unfold fsAfterExec. simpl.
  destruct (globResult _ _ _) as [|path more].
  { simpl. split_and!; [done..| |].
    - erewrite since_app; [|by rewrite Hc, Hpre, <- !app_assoc].
      rewrite !readFiles_app, Hpr, Hcr. done.
    - erewrite since_app; [|by rewrite Hc, Hpre, <- !app_assoc].
      rewrite !unlinked_app, Hpu, Hcu. done. }
  destruct (filesAfterExec w o s2 written !! path) as [file|]; simpl.
  - split_and!; try done.
    + erewrite since_app; [|by rewrite Hc, Hpre, <- !app_assoc].
      rewrite !readFiles_app, Hpr, Hcr. done.
    + erewrite since_app; [|by rewrite Hc, Hpre, <- !app_assoc].
      rewrite !unlinked_app, Hpu, Hcu. done.
  - split_and!; try done.
    + erewrite since_app; [|by rewrite Hc, Hpre, <- !app_assoc].
      rewrite !readFiles_app, Hpr, Hcr. done.
    + erewrite since_app; [|by rewrite Hc, Hpre, <- !app_assoc].
      rewrite !unlinked_app, Hpu, Hcu. done.
Qed.

Lemma existsIn_true (f : Fs) q :
  existsIn f q = true ↔ is_Some (files f !! q) ∨ q ∈ dirs f.
Proof.
  unfold existsIn. rewrite orb_true_iff, !bool_decide_eq_true. done.
Qed.

(** When one path matches and it is a regular file, the search answers
    that path alone, in whatever order the library lists matches. *)
Lemma globResult_only w prefix (f : Fs) p :
  (∀ l, globOrder w l ≡ₚ l) →
  TempFile.globMatches w prefix p = true → is_Some (files f !! p) → p ∉ dirs f →
  (∀ q, TempFile.globMatches w prefix q = true →
        is_Some (files f !! q) ∨ q ∈ dirs f → q = p) →
  globResult w prefix f = [p].
Proof.
  intros Hperm Hg Hp Hnd Honly. unfold globResult.
  pose proof (elem_of_candidates w prefix f) as Hin.
  assert (NoDup (candidates w prefix f)) as HND.
  { unfold candidates. rewrite filter_app. apply NoDup_app. split_and!.
    - apply NoDup_filter, NoDup_fst_map_to_list.
    - intros x [Hx1 Hx1']%list_elem_of_filter [_ Hx2]%list_elem_of_filter.
      apply elem_of_elements in Hx2.
      assert (x = p) as -> by (apply Honly; auto). done.
    - apply NoDup_filter, NoDup_elements. }
  assert (p ∈ candidates w prefix f) as Hpin by (apply Hin; auto).
  assert (∀ q, q ∈ candidates w prefix f → q = p) as Hall.
  { intros q [Hq1 Hq2]%Hin. by apply Honly. }
  assert (candidates w prefix f = [p]) as ->.
  { destruct (candidates w prefix f) as [|a [|b l]].
    - by apply elem_of_nil in Hpin.
    - by rewrite (Hall a ltac:(left)).
    - apply NoDup_cons in HND as [Hnotin _]. exfalso. apply Hnotin.
      rewrite (Hall a ltac:(left)), <- (Hall b ltac:(right; left)). left. }
  apply Permutation_singleton_r, Hperm.
Qed.

(** Without an output path, a downloader that exits with status 0
    while the search for [easy-dl-*] in the temporary directory, regular
    files and directories alike, answers nothing makes [download] reject
    with "No output file produced"; the files are as the downloader left
    them and nothing is deleted. *)
Theorem legacy_download_without_result w url o s ytDlp s1 ffmpeg s2 written :
  ensureBinary w "yt-dlp" s = (Resolved ytDlp, s1) →
  ensureBinary w "ffmpeg" s1 = (Resolved ffmpeg, s2) →
  truthy (TempFile.output o) = false →
  ytdlpExec w (legacyArgs w o (fs s2) ffmpeg url) = ExecDone written →
  globResult w (resultPrefix w) (fsAfterExec w o s2 written) = [] →
  (TempFile.download w url o s).1 = Rejected (Error "No output file produced") ∧
  files (fs (TempFile.download w url o s).2) = filesAfterExec w o s2 written ∧
  unlinked (since s (TempFile.download w url o s).2) = [].
Proof.
  intros Hy Hf Hout Hexec Hnone.
  pose proof (legacy_collect w url o s ytDlp s1 ffmpeg s2 written Hy Hf Hout Hexec) as H.
  rewrite Hnone in H. destruct H as (H1 & H2 & _ & H3). by rewrite H2.
Qed.

Lemma legacy_download_without_result_witness :
  truthy (TempFile.output (TempFile.mkOptions None None None None None)) = false ∧
  (TempFile.download (installedLinux [] (fun _ => ExecDone [("/home/u/video.mp4", [Byte.x00])]))
     "https://youtu.be/dQw4w9WgXcQ" (TempFile.mkOptions None None None None None)
     freshState).1
    = Rejected (Error "No output file produced").
Proof.
  split; [reflexivity|].
  apply (proj1 (legacy_download_without_result
           (installedLinux [] (fun _ => ExecDone [("/home/u/video.mp4", [Byte.x00])]))
           "https://youtu.be/dQw4w9WgXcQ" (TempFile.mkOptions None None None None None)
           freshState "yt-dlp" (mkState emptyFs [EExecFile "which" ["yt-dlp"]])
           "ffmpeg"
           (mkState emptyFs [EExecFile "which" ["yt-dlp"]; EExecFile "which" ["ffmpeg"]])
           [("/home/u/video.mp4", [Byte.x00])] eq_refl eq_refl eq_refl eq_refl
           ltac:(vm_compute; reflexivity))).
Defined.

(** Without an output path, when the search answers with matches,
    [download] goes by the first path of the answer, in the order the
    library gave it. If that path is a regular file, [download] resolves
    with its bytes and deletes it: it is the one file read and the one
    file unlinked. If it is not, no file is deleted and [download]
    rejects with the error of the read, "EISDIR" for a directory. When
    the library's answer is a rearrangement of the matches, the path
    matches [easy-dl-*], and every further match under another path is
    still there afterwards. *)
Theorem legacy_download_returns_first_match w url o s ytDlp s1 ffmpeg s2 written path more :
  ensureBinary w "yt-dlp" s = (Resolved ytDlp, s1) →
  ensureBinary w "ffmpeg" s1 = (Resolved ffmpeg, s2) →
  truthy (TempFile.output o) = false →
  ytdlpExec w (legacyArgs w o (fs s2) ffmpeg url) = ExecDone written →
  globResult w (resultPrefix w) (fsAfterExec w o s2 written) = path :: more →
  (∀ file, filesAfterExec w o s2 written !! path = Some file →
     (TempFile.download w url o s).1 = Resolved (Some (fdata file)) ∧
     files (fs (TempFile.download w url o s).2)
       = delete path (filesAfterExec w o s2 written) ∧
     dirs (fs (TempFile.download w url o s).2) = dirs (fsAfterExec w o s2 written) ∧
     readFiles (since s (TempFile.download w url o s).2) = [path] ∧
     unlinked (since s (TempFile.download w url o s).2) = [path]) ∧
  (filesAfterExec w o s2 written !! path = None →
     (TempFile.download w url o s).1
       = Rejected (readError (fsAfterExec w o s2 written) path) ∧
     (path ∈ dirs (fsAfterExec w o s2 written) →
        (TempFile.download w url o s).1
          = Rejected (Error "EISDIR: illegal operation on a directory, read")) ∧
     fs (TempFile.download w url o s).2 = fsAfterExec w o s2 written ∧
     readFiles (since s (TempFile.download w url o s).2) = [path] ∧
     unlinked (since s (TempFile.download w url o s).2) = []) ∧
  ((∀ l, globOrder w l ≡ₚ l) →
     TempFile.globMatches w (resultPrefix w) path = true ∧
     (is_Some (filesAfterExec w o s2 written !! path)
      ∨ path ∈ dirs (fsAfterExec w o s2 written)) ∧
     (∀ q, q ∈ more → q ≠ path →
        TempFile.globMatches w (resultPrefix w) q = true ∧
        existsIn (fs (TempFile.download w url o s).2) q = true)).
Proof.
  intros Hy Hf Hout Hexec Hsome.
  pose proof (legacy_collect w url o s ytDlp s1 ffmpeg s2 written Hy Hf Hout Hexec) as H.
  rewrite Hsome in H. split_and!.
  - intros file Hfile. rewrite Hfile in H. destruct H as (H1 & H2 & H3 & H4).
    rewrite H2. done.
  - intros Hnone. rewrite Hnone in H. destruct H as (H1 & H2 & H3 & H4).
    split_and!; try done. intros Hd. rewrite H1. unfold readError.
    by rewrite bool_decide_eq_true_2.
  - intros Hperm.
    assert (∀ q, q ∈ path :: more →
              TempFile.globMatches w (resultPrefix w) q = true ∧
              (is_Some (filesAfterExec w o s2 written !! q)
               ∨ q ∈ dirs (fsAfterExec w o s2 written))) as Hin.
    { intros q Hq. rewrite <- Hsome in Hq. unfold globResult in Hq.
      rewrite Hperm in Hq. by apply elem_of_candidates in Hq. }
    destruct (Hin path ltac:(left)) as [Hg Hthere]. split_and!; [done..|].
    intros q Hq Hne. destruct (Hin q ltac:(by right)) as [Hgq Hq'].
    split; [done|]. apply existsIn_true.
    destruct (filesAfterExec w o s2 written !! path) as [file|] eqn:Hfile.
    + destruct H as (_ & -> & _). simpl. rewrite lookup_delete_ne by done. done.
    + destruct H as (_ & -> & _). done.
Qed.

Lemma legacy_download_returns_first_match_witness :
  globResult (withGlobOrder (installedLinux [] ytdlpWritesTwo) (@rev string)) "/tmp/easy-dl-"
    (fsAfterExec (withGlobOrder (installedLinux [] ytdlpWritesTwo) (@rev string))
       (TempFile.mkOptions None None None None None)
       (mkState emptyFs [EExecFile "which" ["yt-dlp"]; EExecFile "which" ["ffmpeg"]])
       [("/tmp/easy-dl-a.mp3", [Byte.x41]); ("/tmp/easy-dl-b.mp3", [Byte.x42])])
    = ["/tmp/easy-dl-b.mp3"; "/tmp/easy-dl-a.mp3"] ∧
  ((TempFile.download (withGlobOrder (installedLinux [] ytdlpWritesTwo) (@rev string))
      "https://youtu.be/dQw4w9WgXcQ" (TempFile.mkOptions None None None None None)
      freshState).1 = Resolved (Some [Byte.x42]) ∧
   unlinked (since freshState
     (TempFile.download (withGlobOrder (installedLinux [] ytdlpWritesTwo) (@rev string))
        "https://youtu.be/dQw4w9WgXcQ" (TempFile.mkOptions None None None None None)
        freshState).2) = ["/tmp/easy-dl-b.mp3"]) ∧
  (TempFile.download (installedLinux [] (fun _ => ExecDone []))
     "https://youtu.be/dQw4w9WgXcQ" (TempFile.mkOptions None None None None None)
     tmpWithDirectory).1
    = Rejected (Error "EISDIR: illegal operation on a directory, read").
Proof.
  split; [vm_compute; reflexivity|]. split.
  - destruct (proj1 (legacy_download_returns_first_match
              (withGlobOrder (installedLinux [] ytdlpWritesTwo) (@rev string))
              "https://youtu.be/dQw4w9WgXcQ" (TempFile.mkOptions None None None None None)
              freshState "yt-dlp" (mkState emptyFs [EExecFile "which" ["yt-dlp"]])
              "ffmpeg"
              (mkState emptyFs [EExecFile "which" ["yt-dlp"]; EExecFile "which" ["ffmpeg"]])
              [("/tmp/easy-dl-a.mp3", [Byte.x41]); ("/tmp/easy-dl-b.mp3", [Byte.x42])]
              "/tmp/easy-dl-b.mp3" ["/tmp/easy-dl-a.mp3"]
              eq_refl eq_refl eq_refl eq_refl ltac:(vm_compute; reflexivity))
              (mkFile 420 [Byte.x42]) ltac:(vm_compute; reflexivity))
      as (H1 & _ & _ & _ & H2).
    split; [exact H1|exact H2].
  - apply (proj1 (proj2 (proj1 (proj2 (legacy_download_returns_first_match
              (installedLinux [] (fun _ => ExecDone []))
              "https://youtu.be/dQw4w9WgXcQ" (TempFile.mkOptions None None None None None)
              tmpWithDirectory "yt-dlp"
              (mkState (fs tmpWithDirectory) [EExecFile "which" ["yt-dlp"]])
              "ffmpeg"
              (mkState (fs tmpWithDirectory)
                 [EExecFile "which" ["yt-dlp"]; EExecFile "which" ["ffmpeg"]])
              [] "/tmp/easy-dl-cache" []
              eq_refl eq_refl eq_refl eq_refl ltac:(vm_compute; reflexivity)))
              ltac:(vm_compute; reflexivity)))
              ltac:(vm_compute; set_solver)).
Defined.

(** Without an output path and without cookies, when the downloader
    writes one file matching [easy-dl-*] into a temporary directory that
    held no file and no directory of such a name, and the library answers
    the search with a rearrangement of the matches, [download] resolves
    with exactly the bytes the downloader wrote, and the files and
    directories are afterwards what they were before: the temporary file
    is gone. *)
Theorem legacy_buffer_round_trip w url o s ytDlp s1 ffmpeg s2 p data :
  ensureBinary w "yt-dlp" s = (Resolved ytDlp, s1) →
  ensureBinary w "ffmpeg" s1 = (Resolved ffmpeg, s2) →
  (∀ l, globOrder w l ≡ₚ l) →
  truthy (TempFile.cookies o) = false →
  truthy (TempFile.output o) = false →
  ytdlpExec w (legacyArgs w o (fs s2) ffmpeg url) = ExecDone [(p, data)] →
  TempFile.globMatches w (resultPrefix w) p = true →
  (∀ q, existsIn (fs s2) q = true → TempFile.globMatches w (resultPrefix w) q = false) →
  (TempFile.download w url o s).1 = Resolved (Some data) ∧
  files (fs (TempFile.download w url o s).2) = files (fs s2) ∧
  dirs (fs (TempFile.download w url o s).2) = dirs (fs s2).
Proof.
  intros Hy Hf Hperm Hco Hout Hexec Hg Hclean.
  pose proof (legacy_collect w url o s ytDlp s1 ffmpeg s2 [(p, data)] Hy Hf Hout Hexec) as H.
  assert (filesAfterExec w o s2 [(p, data)] = <[p := mkFile 420 data]> (files (fs s2))) as Hm.
  { unfold filesAfterExec, afterCookies. by rewrite Hco. }
  assert (dirs (fsAfterExec w o s2 [(p, data)]) = dirs (fs s2)) as Hd.
  { unfold fsAfterExec, afterCookies. by rewrite Hco. }
  assert (existsIn (fs s2) p = false) as Hfresh.
  { destruct (existsIn (fs s2) p) eqn:E; [|done]. apply Hclean in E. congruence. }
  assert (files (fs s2) !! p = None ∧ p ∉ dirs (fs s2)) as [Hnofile Hnodir].
  { split.
    - apply eq_None_not_Some. intros Hp.
      assert (existsIn (fs s2) p = true) by (apply existsIn_true; auto). congruence.
    - intros Hp.
      assert (existsIn (fs s2) p = true) by (apply existsIn_true; auto). congruence. }
  rewrite (globResult_only _ _ _ p) in H.
  - rewrite Hm, lookup_insert_eq in H. destruct H as (Hres & Hfs & _).
    rewrite Hfs. cbn [files dirs]. rewrite Hd. split_and!; [done| |done].
    by rewrite delete_insert_id.
  - done.
  - done.
  - simpl. rewrite Hm, lookup_insert_eq. by eexists.
  - by rewrite Hd.
  - intros q Hgq Hq. destruct (decide (q = p)) as [->|Hne]; [done|].
    unfold fsAfterExec in Hq, Hd. cbn [files dirs] in Hq, Hd.
    rewrite Hm, Hd, lookup_insert_ne in Hq by done.
    apply existsIn_true, Hclean in Hq. congruence.
Qed.

Lemma legacy_buffer_round_trip_witness :
  truthy (TempFile.cookies (TempFile.mkOptions (Some "video") None None None None)) = false ∧
  truthy (TempFile.output (TempFile.mkOptions (Some "video") None None None None)) = false ∧
  TempFile.globMatches
    (installedLinux [] (fun _ => ExecDone [("/tmp/easy-dl-abc.mp4", [Byte.x00; Byte.x18])]))
    "/tmp/easy-dl-" "/tmp/easy-dl-abc.mp4" = true ∧
  (TempFile.download
     (installedLinux [] (fun _ => ExecDone [("/tmp/easy-dl-abc.mp4", [Byte.x00; Byte.x18])]))
     "https://youtu.be/dQw4w9WgXcQ" (TempFile.mkOptions (Some "video") None None None None)
     freshState).1 = Resolved (Some [Byte.x00; Byte.x18]).
Proof.
  split; [reflexivity|]. split; [reflexivity|]. split; [vm_compute; reflexivity|].
  apply (proj1 (legacy_buffer_round_trip
           (installedLinux [] (fun _ => ExecDone [("/tmp/easy-dl-abc.mp4", [Byte.x00; Byte.x18])]))
           "https://youtu.be/dQw4w9WgXcQ" (TempFile.mkOptions (Some "video") None None None None)
           freshState "yt-dlp" (mkState emptyFs [EExecFile "which" ["yt-dlp"]])
           "ffmpeg"
           (mkState emptyFs [EExecFile "which" ["yt-dlp"]; EExecFile "which" ["ffmpeg"]])
           "/tmp/easy-dl-abc.mp4" [Byte.x00; Byte.x18]
           eq_refl eq_refl ltac:(intros l; reflexivity) eq_refl eq_refl eq_refl
           ltac:(vm_compute; reflexivity)
           ltac:(intros q [[x Hx]|Hq]%existsIn_true;
                 [simpl in Hx; by rewrite lookup_empty in Hx|simpl in Hq; set_solver]))).
Defined.

(** Without an output path, raw cookie data is written under a name
    that itself matches [easy-dl-*]. When the downloader exits with
    status 0 leaving no file, the temporary directory held no file and no
    directory of such a name, and the library answers the search with a
    rearrangement of the matches, the search finds the cookie file:
    [download] resolves with the cookie data as its result and deletes
    the cookie file. *)
Theorem raw_cookies_come_back_as_the_result w url o s ytDlp s1 ffmpeg s2 c :
  ensureBinary w "yt-dlp" s = (Resolved ytDlp, s1) →
  ensureBinary w "ffmpeg" s1 = (Resolved ffmpeg, s2) →
  (∀ l, globOrder w l ≡ₚ l) →
  TempFile.cookies o = Some c → c ≠ "" → existsIn (fs s2) c = false →
  truthy (TempFile.output o) = false →
  ytdlpExec w (legacyArgs w o (fs s2) ffmpeg url) = ExecDone [] →
  TempFile.globMatches w (resultPrefix w) (TempFile.cookieTempFile w) = true →
  (∀ q, existsIn (fs s2) q = true → TempFile.globMatches w (resultPrefix w) q = false) →
  (TempFile.download w url o s).1 = Resolved (Some (String.list_byte_of_string c)) ∧
  unlinked (since s (TempFile.download w url o s).2) = [TempFile.cookieTempFile w] ∧
  files (fs (TempFile.download w url o s).2) = files (fs s2) ∧
  dirs (fs (TempFile.download w url o s).2) = dirs (fs s2).
Proof.
  intros Hy Hf Hperm Hco Hne Hex Hout Hexec Hg Hclean.
  pose proof (legacy_collect w url o s ytDlp s1 ffmpeg s2 [] Hy Hf Hout Hexec) as H.
  assert (existsIn (fs s2) (TempFile.cookieTempFile w) = false) as Hfresh.
  { destruct (existsIn (fs s2) (TempFile.cookieTempFile w)) eqn:E; [|done].
    apply Hclean in E. congruence. }
  assert (files (fs s2) !! TempFile.cookieTempFile w = None
          ∧ TempFile.cookieTempFile w ∉ dirs (fs s2)) as [Hnofile Hnodir].
  { split.
    - apply eq_None_not_Some. intros Hp.
      assert (existsIn (fs s2) (TempFile.cookieTempFile w) = true)
        by (apply existsIn_true; auto). congruence.
    - intros Hp.
      assert (existsIn (fs s2) (TempFile.cookieTempFile w) = true)
        by (apply existsIn_true; auto). congruence. }
  assert (filesAfterExec w o s2 []
          = <[TempFile.cookieTempFile w := mkFile 438 (String.list_byte_of_string c)]>
              (files (fs s2))) as Hm.
  { unfold filesAfterExec, afterCookies. rewrite Hco. simpl.
    apply String.eqb_neq in Hne as ->. simpl. by rewrite Hex, Hnofile. }
  assert (dirs (fsAfterExec w o s2 []) = dirs (fs s2)) as Hd.
  { unfold fsAfterExec, afterCookies. rewrite Hco. simpl.
    apply String.eqb_neq in Hne as ->. simpl. by rewrite Hex. }
  rewrite (globResult_only _ _ _ (TempFile.cookieTempFile w)) in H.
  - rewrite Hm, lookup_insert_eq in H. destruct H as (Hres & Hfs & _ & Hun).
    rewrite Hfs. cbn [files dirs]. rewrite Hd. split_and!; [done..| |done].
    by rewrite delete_insert_id.
  - done.
  - done.
  - simpl. rewrite Hm, lookup_insert_eq. by eexists.
  - by rewrite Hd.
  - intros q Hgq Hq.
    destruct (decide (q = TempFile.cookieTempFile w)) as [->|Hn]; [done|].
    unfold fsAfterExec in Hq, Hd. cbn [files dirs] in Hq, Hd.
    rewrite Hm, Hd, lookup_insert_ne in Hq by done.
    apply existsIn_true, Hclean in Hq. congruence.
Qed.

Lemma raw_cookies_come_back_as_the_result_witness :
  "SID=abc123" ≠ "" ∧
  TempFile.globMatches (installedLinux [] (fun _ => ExecDone [])) "/tmp/easy-dl-"
    "/tmp/easy-dl-cookies-1700000000000.txt" = true ∧
  (TempFile.download (installedLinux [] (fun _ => ExecDone [])) "https://youtu.be/dQw4w9WgXcQ"
     (TempFile.mkOptions None None None None (Some "SID=abc123")) freshState).1
    = Resolved (Some (String.list_byte_of_string "SID=abc123")).
Proof.
  split; [discriminate|]. split; [vm_compute; reflexivity|].
  apply (proj1 (raw_cookies_come_back_as_the_result
           (installedLinux [] (fun _ => ExecDone [])) "https://youtu.be/dQw4w9WgXcQ"
           (TempFile.mkOptions None None None None (Some "SID=abc123")) freshState
           "yt-dlp" (mkState emptyFs [EExecFile "which" ["yt-dlp"]])
           "ffmpeg"
           (mkState emptyFs [EExecFile "which" ["yt-dlp"]; EExecFile "which" ["ffmpeg"]])
           "SID=abc123" eq_refl eq_refl ltac:(intros l; reflexivity) eq_refl
           ltac:(discriminate)
           ltac:(vm_compute; reflexivity) eq_refl eq_refl ltac:(vm_compute; reflexivity)
           ltac:(intros q [[x Hx]|Hq]%existsIn_true;
                 [simpl in Hx; by rewrite lookup_empty in Hx|simpl in Hq; set_solver]))).
Defined.

Lemma bind_unresolved {A B} (m : M A) (k : A → M B) s :
  isResolved (m s).1 = false →
  isResolved (bind m k s).1 = false ∧ (bind m k s).2 = (m s).2.
Proof. unfold bind. by destruct (m s) as [[a|e|] s']. Qed.

(** The temp-file variant's [download] when a tool does not resolve. *)
Lemma legacy_download_unresolved w url o s :
  (isResolved (ensureBinary w "yt-dlp" s).1 = false →
     isResolved (TempFile.download w url o s).1 = false ∧
     (TempFile.download w url o s).2 = (ensureBinary w "yt-dlp" s).2) ∧
  (∀ ytDlp s1, ensureBinary w "yt-dlp" s = (Resolved ytDlp, s1) →
     isResolved (ensureBinary w "ffmpeg" s1).1 = false →
     isResolved (TempFile.download w url o s).1 = false ∧
     (TempFile.download w url o s).2 = (ensureBinary w "ffmpeg" s1).2).
Proof.
  unfold TempFile.download. cbv zeta. split.
  - intros Hy. by apply bind_unresolved.
  - intros ytDlp s1 Hy Hf. rewrite (bind_resolved _ _ _ _ _ Hy). by apply bind_unresolved.
Qed.

(** With an output path, the temp-file variant's [download] never
    resolves with a buffer, and on no path, failed resolution and failed
    downloader included, does it search the temporary directory, read a
    file back or delete one. *)
Theorem legacy_file_mode_reads_nothing_back w url o s :
  truthy (TempFile.output o) = true →
  (∀ r, (TempFile.download w url o s).1 = Resolved r → r = None) ∧
  globbed (since s (TempFile.download w url o s).2) = [] ∧
  readFiles (since s (TempFile.download w url o s).2) = [] ∧
  unlinked (since s (TempFile.download w url o s).2) = [].
Proof.
  intros Hout.
  destruct (legacy_download_unresolved w url o s) as [Hfail1 Hfail2].
  destruct (ensureBinary_events w "yt-dlp" s) as (d1 & Ht1 & Hd1 & _).
  destruct (resolutionEvents_quiet _ Hd1) as (_ & Hu1 & _ & _ & Hg1 & Hr1 & _).
  destruct (isResolved (ensureBinary w "yt-dlp" s).1) eqn:Hres1.
  2:{ destruct (Hfail1 eq_refl) as [Hres Hst]. rewrite Hst, (since_app _ _ _ Ht1).
      split_and!; try done. intros r Hr. by rewrite Hr in Hres. }
  destruct (ensureBinary w "yt-dlp" s) as [[ytDlp|e|] s1] eqn:Hy; [|done..].
  simpl in Ht1. clear Hfail1. specialize (Hfail2 ytDlp s1 eq_refl).
  destruct (ensureBinary_events w "ffmpeg" s1) as (d2 & Ht2 & Hd2 & _).
  destruct (resolutionEvents_quiet _ Hd2) as (_ & Hu2 & _ & _ & Hg2 & Hr2 & _).
  rewrite Ht1, <- app_assoc in Ht2.
  destruct (isResolved (ensureBinary w "ffmpeg" s1).1) eqn:Hres2.
  2:{ destruct (Hfail2 eq_refl) as [Hres Hst]. rewrite Hst, (since_app _ _ _ Ht2).
      rewrite globbed_app, readFiles_app, unlinked_app, Hu1, Hu2, Hg1, Hg2, Hr1, Hr2.
      split_and!; try done. intros r Hr. by rewrite Hr in Hres. }
  destruct (ensureBinary w "ffmpeg" s1) as [[ffmpeg|e|] s2] eqn:Hf; [|done..].
  destruct (legacy_since w url o s ytDlp s1 ffmpeg s2 Hy Hf)
    as (pre & ce & rest & -> & Hq & _ & _ & _ & _ & Hrest & _ & (Hg & Hr & Hu) & _).
  rewrite (Hrest Hout).
  destruct (resolutionEvents_quiet _ Hq) as (_ & Hpu & _ & _ & Hpg & Hpr & _).
  rewrite !globbed_app, !readFiles_app, !unlinked_app, Hg, Hr, Hu, Hpu, Hpg, Hpr.
  split_and!; try done.
  rewrite (legacy_download_run w url o s ytDlp s1 ffmpeg s2 Hy Hf). cbv zeta.
  rewrite Hout. simpl. destruct (ytdlpExec w _); [done|]. by intros r [= <-].
Qed.

Lemma legacy_file_mode_reads_nothing_back_witness :
  truthy (TempFile.output rawCookieOptions) = true ∧
  unlinked (since freshState
              (TempFile.download (installedLinux [] ytdlpWrites)
                 "https://youtu.be/dQw4w9WgXcQ" rawCookieOptions freshState).2) = [].
Proof.
  split; [reflexivity|].
  apply (proj2 (proj2 (proj2 (legacy_file_mode_reads_nothing_back
           (installedLinux [] ytdlpWrites) "https://youtu.be/dQw4w9WgXcQ" rawCookieOptions
           freshState eq_refl)))).
Defined.

(** ** The command line *)

Lemma isFlag_cases f :
  Cli.isFlag f = true →
  f = "--mode" ∨ f = "--format" ∨ f = "--quality" ∨ f = "--output" ∨ f = "--cookies".
Proof.
  unfold Cli.isFlag. rewrite !orb_true_iff, !String.eqb_eq. tauto.
Qed.

Lemma parseFlags_pair f v rest o :
  Cli.isFlag f = true →
  ∃ o', Cli.assign f (Some v) o = Some o' ∧
        Cli.parseFlags (f :: v :: rest) o = Cli.parseFlags rest o'.
Proof.
  intros Hf. destruct (isFlag_cases f Hf) as [-> | [-> | [-> | [-> | ->]]]]; by eexists.
Qed.

(** Flags compose from left to right: parsing a run of flag/value pairs
    followed by anything is parsing what follows from the options the
    pairs gave. *)
Lemma parseFlags_app pairs : ∀ rest o,
  (∀ f v, (f, v) ∈ pairs → Cli.isFlag f = true) →
  Cli.parseFlags (Cli.flatten pairs ++ rest) o
    = Cli.parseFlags rest (Cli.parseFlags (Cli.flatten pairs) o).
Proof.
  induction pairs as [|[f v] pairs IH]; intros rest o Hflags; [done|].
  assert (Cli.isFlag f = true) as Hf by (apply (Hflags f v); left).
  unfold Cli.flatten in *. cbn [flat_map fst snd app].
  destruct (parseFlags_pair f v (flat_map (λ fv, [fv.1; fv.2]) pairs ++ rest) o Hf)
    as (o' & Ho' & ->).
  destruct (parseFlags_pair f v (flat_map (λ fv, [fv.1; fv.2]) pairs) o Hf)
    as (o'' & Ho'' & ->).
  rewrite Ho' in Ho''. injection Ho'' as <-.
  apply IH. intros f' v' Hin. apply (Hflags f' v'). by right.
Qed.

(** On a command line of flag/value pairs every option ends up with the
    value of the last pair naming its flag, and keeps what it had if no
    pair names it. A value is taken as it is, even when it reads like a
    flag or is empty. *)
Theorem parseFlags_last_wins pairs : ∀ o,
  (∀ f v, (f, v) ∈ pairs → Cli.isFlag f = true) →
  Cli.parseFlags (Cli.flatten pairs) o
    = TempFile.mkOptions
        (Cli.lastValue "--mode" pairs (TempFile.mode o))
        (Cli.lastValue "--format" pairs (TempFile.format o))
        (Cli.lastValue "--quality" pairs (TempFile.quality o))
        (Cli.lastValue "--output" pairs (TempFile.output o))
        (Cli.lastValue "--cookies" pairs (TempFile.cookies o)).
Proof.
  induction pairs as [|[f v] pairs IH]; intros o Hflags; [by destruct o|].
  assert (Cli.isFlag f = true) as Hf by (apply (Hflags f v); left).
  assert (∀ f' v', (f', v') ∈ pairs → Cli.isFlag f' = true) as Hrest.
  { intros f' v' Hin. apply (Hflags f' v'). by right. }
  destruct (isFlag_cases f Hf) as [-> | [-> | [-> | [-> | ->]]]];
    unfold Cli.flatten in *; simpl; by rewrite IH.
Qed.

Lemma parseFlags_last_wins_witness :
  (∀ f v, (f, v) ∈ [("--mode", "audio"); ("--output", "--mode"); ("--mode", "video")] →
          Cli.isFlag f = true) ∧
  Cli.parseFlags ["--mode"; "audio"; "--output"; "--mode"; "--mode"; "video"] Cli.noOptions
    = TempFile.mkOptions (Some "video") None None (Some "--mode") None.
Proof.
  assert (∀ f v, (f, v) ∈ [("--mode", "audio"); ("--output", "--mode"); ("--mode", "video")] →
                 Cli.isFlag f = true) as H.
  { intros f v Hin. repeat (apply elem_of_cons in Hin as [[= -> ->]|Hin]; [reflexivity|]).
    by apply elem_of_nil in Hin. }
  split; [exact H|].
  exact (parseFlags_last_wins
           [("--mode", "audio"); ("--output", "--mode"); ("--mode", "video")] Cli.noOptions H).
Defined.

(** What ends or interrupts a run of flag/value pairs. An empty argument
    stops the parse: nothing after it is looked at. A flag that is the
    last argument makes its option undefined, whatever it was. An
    argument that is neither empty nor a flag is skipped, alone. *)
Theorem parseFlags_irregular_input pairs o :
  (∀ f v, (f, v) ∈ pairs → Cli.isFlag f = true) →
  (∀ rest, Cli.parseFlags (Cli.flatten pairs ++ "" :: rest) o
             = Cli.parseFlags (Cli.flatten pairs) o) ∧
  (∀ f, Cli.isFlag f = true →
     Cli.assign f None (Cli.parseFlags (Cli.flatten pairs) o)
       = Some (Cli.parseFlags (Cli.flatten pairs ++ [f]) o)) ∧
  (∀ x rest, x ≠ "" → Cli.isFlag x = false →
     Cli.parseFlags (Cli.flatten pairs ++ x :: rest) o
       = Cli.parseFlags (Cli.flatten pairs ++ rest) o).
Proof.
  intros Hflags. split_and!.
  - intros rest. by rewrite parseFlags_app.
  - intros f Hf. rewrite parseFlags_app by done.
    destruct (isFlag_cases f Hf) as [-> | [-> | [-> | [-> | ->]]]]; reflexivity.
  - intros x rest Hx Hnf. rewrite !parseFlags_app by done.
    cbn [Cli.parseFlags]. apply String.eqb_neq in Hx as ->.
    unfold Cli.isFlag in Hnf. rewrite !orb_false_iff in Hnf.
    destruct Hnf as ((((H1 & H2) & H3) & H4) & H5).
    unfold Cli.assign. by rewrite H1, H2, H3, H4, H5.
Qed.

Lemma parseFlags_irregular_input_witness :
  (∀ f v, (f, v) ∈ [("--mode", "video")] → Cli.isFlag f = true) ∧
  Cli.parseFlags (["--mode"; "video"] ++ ["--mode"]) Cli.noOptions
    = TempFile.mkOptions None None None None None.
Proof.
  assert (∀ f v, (f, v) ∈ [("--mode", "video")] → Cli.isFlag f = true) as H.
  { intros f v Hin. apply elem_of_cons in Hin as [[= -> ->]|Hin]; [reflexivity|].
    by apply elem_of_nil in Hin. }
  split; [exact H|].
  pose proof (proj1 (proj2 (parseFlags_irregular_input [("--mode", "video")] Cli.noOptions H))
                "--mode" eq_refl) as Hlast.
  apply (inj Some). etransitivity; [symmetry; exact Hlast|reflexivity].
Defined.

(** Every options object can be spelt on the command line: after a
    non-empty URL, the flags of [toArgv] parse back to the very options
    they spell, and nothing is printed. *)
Theorem parseArgs_toArgv url o s :
  url ≠ "" →
  Cli.parseArgs (url :: Cli.toArgv o) s = (Cli.Returns (url, o), s).
Proof.
  intros Hurl. unfold Cli.parseArgs. cbn [head tail truthy default].
  apply String.eqb_neq in Hurl as ->. cbn [negb].
  by destruct o as [[m|] [f|] [q|] [out|] [c|]].
Qed.

Lemma parseArgs_toArgv_witness :
  "https://youtu.be/dQw4w9WgXcQ" ≠ "" ∧
  Cli.parseArgs ["https://youtu.be/dQw4w9WgXcQ"; "--mode"; "video"; "--output"; ""; "--cookies";
                 "--mode"] freshState
    = (Cli.Returns ("https://youtu.be/dQw4w9WgXcQ",
                    TempFile.mkOptions (Some "video") None None (Some "") (Some "--mode")),
       freshState).
Proof.
  split; [discriminate|].
  apply (parseArgs_toArgv "https://youtu.be/dQw4w9WgXcQ"
           (TempFile.mkOptions (Some "video") None None (Some "") (Some "--mode")) freshState).
  discriminate.
Defined.


